(** * runsh: the script runner of [cli_runner.py]

    A shallow embedding of [src/script_runner/cli_runner.py]: the metadata
    parser ([parse_script_metadata]), the command adapter ([ScriptCommand]:
    [arguments], [options], [handle]), the script transformer
    ([_create_temp_script]), the in-place variant of it
    ([_update_script_runner_block]) and the tool itself
    ([discover_scripts], [main]).  What the code calls outside the file
    (cleo's helpers and dispatch, pathlib, the child process) is taken as
    a parameter.

    Texts are modelled as [string]s of 8-bit characters; the character
    classes of Python ([str.strip], [\s], [\w], [str.upper]) are those of
    ASCII text. *)

From Stdlib Require Import String Ascii List ZArith Lia Bool Arith DecimalString.
From stdpp Require Import base gmap strings.
Import ListNotations.

Local Open Scope string_scope.
Local Open Scope list_scope.

(** ** Python's string operations *)

Module Py.

Definition nl : string := String (ascii_of_nat 10) "".

(** [s.startswith(p)] *)
Fixpoint startswith (p s : string) : bool :=
  match p with
  | "" => true
  | String a p' =>
      match s with
      | "" => false
      | String b s' => if Ascii.eqb a b then startswith p' s' else false
      end
  end.

(** [s[n:]] *)
Fixpoint drop (n : nat) (s : string) : string :=
  match n with
  | O => s
  | S n' => match s with "" => "" | String _ s' => drop n' s' end
  end.

(** [s[:n]] *)
Fixpoint take (n : nat) (s : string) : string :=
  match n with
  | O => ""
  | S n' => match s with "" => "" | String a s' => String a (take n' s') end
  end.

(** [sub in s] *)
Fixpoint contains (sub s : string) : bool :=
  startswith sub s ||
  match s with
  | "" => false
  | String _ s' => contains sub s'
  end.

(** The number of positions of [s] at which [sub] occurs. *)
Fixpoint occurrences (sub s : string) : nat :=
  (if startswith sub s then 1 else 0) +
  match s with
  | "" => 0
  | String _ s' => occurrences sub s'
  end.

(** Whitespace of [str.strip()] and of [\s]. *)
Definition isspace (c : ascii) : bool :=
  let n := nat_of_ascii c in
  (((9 <=? n) && (n <=? 13)) || ((28 <=? n) && (n <=? 32)))%nat.

(** Word characters of [\w] among the ASCII characters: the letters and
    digits that [\w] matches beyond ASCII are not in the class, so the
    patterns agree with Python's on ASCII text only. *)
Definition isword (c : ascii) : bool :=
  let n := nat_of_ascii c in
  (((48 <=? n) && (n <=? 57)) || ((65 <=? n) && (n <=? 90))
   || ((97 <=? n) && (n <=? 122)) || (n =? 95))%nat.

Fixpoint lstrip (s : string) : string :=
  match s with
  | "" => ""
  | String c s' => if isspace c then lstrip s' else s
  end.

Fixpoint rstrip (s : string) : string :=
  match s with
  | "" => ""
  | String c s' =>
      match rstrip s' with
      | "" => if isspace c then "" else String c ""
      | r => String c r
      end
  end.

(** [s.strip()] *)
Definition strip (s : string) : string := rstrip (lstrip s).

Definition map_chars (f : ascii -> ascii) : string -> string :=
  fix go (s : string) : string :=
    match s with
    | "" => ""
    | String c s' => String (f c) (go s')
    end.

(** [s.replace("-", "_")] *)
Definition replace_hyphen : string -> string :=
  map_chars (fun c => if Ascii.eqb c "-" then "_"%char else c).

(** [s.upper()] for a text of ASCII characters: the upper case of other
    characters, which can be longer than the character, is not modelled. *)
Definition upper : string -> string :=
  map_chars (fun c =>
    let n := nat_of_ascii c in
    if ((97 <=? n) && (n <=? 122))%nat then ascii_of_nat (n - 32) else c).

(** [s.split(sep)] for a non-empty [sep]: the pieces between the
    occurrences of [sep], found from the left and not overlapping.
    [skip] counts the characters of a separator still to pass over. *)
Fixpoint split_go (sep : string) (skip : nat) (s : string) : list string :=
  match s with
  | "" => [""]
  | String c s' =>
      match skip with
      | S k => split_go sep k s'
      | O =>
          if startswith sep s then "" :: split_go sep (String.length sep - 1) s'
          else
            match split_go sep 0 s' with
            | piece :: pieces => String c piece :: pieces
            | [] => [String c ""]
            end
      end
  end.

Definition split (sep s : string) : list string := split_go sep 0 s.

(** [sep.join(pieces)] *)
Fixpoint join (sep : string) (pieces : list string) : string :=
  match pieces with
  | [] => ""
  | [p] => p
  | p :: ps => p +:+ sep +:+ join sep ps
  end.

(** [for line in f]: the lines of a text, each with its line end. *)
Fixpoint lines_go (s : string) : list string :=
  match s with
  | "" => [""]
  | String c s' =>
      if Ascii.eqb c (ascii_of_nat 10) then String c "" :: lines_go s'
      else
        match lines_go s' with
        | l :: ls => String c l :: ls
        | [] => [String c ""]
        end
  end.

Definition file_lines (s : string) : list string :=
  List.filter (fun l => negb (String.eqb l "")) (lines_go s).

End Py.

(** ** Regular expressions, as Python's backtracking matcher runs them *)

Module Re.

Inductive regex : Type :=
| Chr (c : ascii)                (* a literal character *)
| Class (p : ascii -> bool)      (* a character class *)
| Eps
| Seq (r1 r2 : regex)
| Opt (r : regex)                (* r?   greedy *)
| Star (r : regex)               (* r*   greedy *)
| LazyStar (r : regex)           (* r*?  non-greedy *)
| Group (i : nat) (r : regex).   (* the i-th capturing group *)

Definition Plus (r : regex) : regex := Seq r (Star r).

Fixpoint Lit (s : string) : regex :=
  match s with
  | "" => Eps
  | String c s' => Seq (Chr c) (Lit s')
  end.

(** Captured groups, the most recent capture of a group first. *)
Definition captures : Type := list (nat * string).

Fixpoint group (i : nat) (c : captures) : option string :=
  match c with
  | [] => None
  | (j, s) :: c' => if Nat.eqb i j then Some s else group i c'
  end.

(** [run r s c k]: match [r] at the start of [s], then continue with [k]
    on the rest; alternatives are tried in the matcher's order and the
    first complete success is the result. *)
Fixpoint run {R : Type} (r : regex) (s : string) (c : captures)
    (k : string -> captures -> option R) {struct r} : option R :=
  match r with
  | Chr a =>
      match s with
      | String b s' => if Ascii.eqb a b then k s' c else None
      | "" => None
      end
  | Class p =>
      match s with
      | String b s' => if p b then k s' c else None
      | "" => None
      end
  | Eps => k s c
  | Seq r1 r2 => run r1 s c (fun s' c' => run r2 s' c' k)
  | Opt r1 =>
      match run r1 s c k with
      | Some x => Some x
      | None => k s c
      end
  | Star r1 =>
      (fix loop (n : nat) (s : string) (c : captures) : option R :=
         match n with
         | O => k s c
         | S n' =>
             match run r1 s c (fun s' c' =>
                     if (String.length s' <? String.length s)%nat
                     then loop n' s' c' else None) with
             | Some x => Some x
             | None => k s c
             end
         end) (String.length s) s c
  | LazyStar r1 =>
      (fix loop (n : nat) (s : string) (c : captures) : option R :=
         match k s c with
         | Some x => Some x
         | None =>
             match n with
             | O => None
             | S n' =>
                 run r1 s c (fun s' c' =>
                   if (String.length s' <? String.length s)%nat
                   then loop n' s' c' else None)
             end
         end) (String.length s) s c
  | Group i r1 =>
      run r1 s c (fun s' c' =>
        k s' ((i, Py.take (String.length s - String.length s') s) :: c'))
  end.

(** [re.match(r, s)]: anchored at the start of [s]; the captures and the
    unmatched rest. *)
Definition rmatch (r : regex) (s : string) : option (captures * string) :=
  run r s [] (fun s' c => Some (c, s')).

(** [re.search(r, s)]: the leftmost match. *)
Fixpoint search (r : regex) (s : string) : option (captures * string) :=
  match rmatch r s with
  | Some m => Some m
  | None =>
      match s with
      | "" => None
      | String _ s' => search r s'
      end
  end.

(** [re.sub(r, "", s)] for a pattern [r] that matches no empty text:
    every match, found from the left and not overlapping, is deleted.
    [skip] counts the characters of a match still to delete. *)
Fixpoint sub_go (r : regex) (skip : nat) (s : string) : string :=
  match s with
  | "" => ""
  | String ch s' =>
      match skip with
      | S k => sub_go r k s'
      | O =>
          match rmatch r s with
          | Some (_, rest) =>
              match String.length s - String.length rest with
              | S k => sub_go r k s'
              | O => String ch (sub_go r 0 s')
              end
          | None => String ch (sub_go r 0 s')
          end
      end
  end.

Definition sub_empty (r : regex) (s : string) : string := sub_go r 0 s.

Definition any : ascii -> bool := fun _ => true.
Definition dot : ascii -> bool := fun c => negb (Ascii.eqb c (ascii_of_nat 10)).
Definition space : ascii -> bool := Py.isspace.
Definition word : ascii -> bool := Py.isword.
Definition non (a : ascii) : ascii -> bool := fun c => negb (Ascii.eqb c a).

End Re.

(** ** The command schema: the dictionaries of [script_meta]

    A field of type [option] is [None] when the dictionary has no such key
    (or holds Python's [None] under it). *)

Record arg_info : Type := {
  arg_name : string;
  arg_description : option string;
  arg_optional : option bool;
  arg_default : option string }.

Record opt_info : Type := {
  opt_name : string;
  opt_description : option string;
  opt_short : option string;
  opt_flag : option bool;
  opt_default : option string }.

Record metadata : Type := {
  description : option string;
  args : list arg_info;
  options : list opt_info }.

(** [d.get(key, dflt)] *)
Definition get {A : Type} (field : option A) (dflt : A) : A :=
  match field with Some v => v | None => dflt end.

(** Truth value of an optional text: [None] and [""] are false. *)
Definition truthy_str (v : option string) : bool :=
  match v with
  | Some s => negb (String.eqb s "")
  | None => false
  end.

(** [CLEO_RESERVED_OPTIONS] and [CLEO_RESERVED_SHORTCUTS] *)
Definition CLEO_RESERVED_OPTIONS : gset string :=
  {[ "verbose"; "quiet"; "help"; "version"; "no-interaction"; "ansi"; "no-ansi" ]}.

Definition CLEO_RESERVED_SHORTCUTS : gset string :=
  {[ "v"; "q"; "h"; "V"; "n" ]}.

(** ** [parse_script_metadata] *)

Module Parser.
Import Re.

(** The patterns are quoted with a blank before the closing parenthesis
    of their last group, which the source does not have.

    [# @arg (\w+)(\s+\[([^\]]+)\])*\s*:\s*(.* )] *)
Definition arg_pattern : regex :=
  Seq (Lit "# @arg ")
 (Seq (Group 1 (Plus (Class word)))
 (Seq (Star (Group 2 (Seq (Plus (Class space))
                     (Seq (Chr "[")
                     (Seq (Group 3 (Plus (Class (non "]"))))
                          (Chr "]"))))))
 (Seq (Star (Class space))
 (Seq (Chr ":")
 (Seq (Star (Class space))
      (Group 4 (Star (Class dot)))))))).

(** [# @option ([^,]+)(?:,(\w+))?(\s+\[([^\]]+)\])?\s*:\s*(.* )] *)
Definition option_pattern : regex :=
  Seq (Lit "# @option ")
 (Seq (Group 1 (Plus (Class (non ","))))
 (Seq (Opt (Seq (Chr ",") (Group 2 (Plus (Class word)))))
 (Seq (Opt (Group 3 (Seq (Plus (Class space))
                    (Seq (Chr "[")
                    (Seq (Group 4 (Plus (Class (non "]"))))
                         (Chr "]"))))))
 (Seq (Star (Class space))
 (Seq (Chr ":")
 (Seq (Star (Class space))
      (Group 5 (Star (Class dot))))))))).

(** [default=([^\]]+)] *)
Definition default_pattern : regex :=
  Seq (Lit "default=") (Group 1 (Plus (Class (non "]")))).

(** [re.search(r"default=([^\]]+)", modifiers)] and its [group(1)] *)
Definition search_default (modifiers : string) : option string :=
  match search default_pattern modifiers with
  | Some (c, _) => group 1 c
  | None => None
  end.

(** [line.split(":", 1)[1]] *)
Fixpoint after_colon (s : string) : string :=
  match s with
  | "" => ""
  | String c s' => if Ascii.eqb c ":" then s' else after_colon s'
  end.

(** The body of the branch [elif line.startswith("# @arg")]: the
    dictionary appended to [metadata["args"]], if the line matches. *)
Definition parse_arg_line (line : string) : option arg_info :=
  match rmatch arg_pattern line with
  | Some (c, _) =>
      let name := get (group 1 c) "" in
      let modifiers := group 3 c in
      let desc := get (group 4 c) "" in
      let m := get modifiers "" in
      Some {| arg_name := name;
              arg_description := Some desc;
              arg_optional :=
                if truthy_str modifiers && Py.contains "optional" m
                then Some true else None;
              arg_default :=
                if truthy_str modifiers && Py.contains "default=" m
                then search_default m else None |}
  | None => None
  end.

(** The body of the branch [elif line.startswith("# @option")]. *)
Definition parse_option_line (line : string) : option opt_info :=
  match rmatch option_pattern line with
  | Some (c, _) =>
      let name := get (group 1 c) "" in
      let short := group 2 c in
      let modifiers := group 4 c in
      let desc := get (group 5 c) "" in
      let m := get modifiers "" in
      let base (flag : option bool) (default : option string) :=
        {| opt_name := Py.strip name;
           opt_description := Some desc;
           opt_short := short;
           opt_flag := flag;
           opt_default := default |} in
      Some
        (if truthy_str modifiers then
           if Py.contains "flag" m then base (Some true) None
           else if Py.contains "default=" m then
             match search_default m with
             | Some d => base (Some false) (Some d)
             | None => base None None
             end
           else base (Some false) None
         else base (Some false) None)
  | None => None
  end.

(** One turn of the loop [for line in f]. *)
Definition parse_line (md : metadata) (raw : string) : metadata :=
  let line := Py.strip raw in
  if Py.startswith "# @description:" line then
    {| description := Some (Py.strip (after_colon line));
       args := args md; options := options md |}
  else if Py.startswith "# @arg" line then
    match parse_arg_line line with
    | Some a => {| description := description md;
                   args := args md ++ [a]; options := options md |}
    | None => md
    end
  else if Py.startswith "# @option" line then
    match parse_option_line line with
    | Some o => {| description := description md;
                   args := args md; options := options md ++ [o] |}
    | None => md
    end
  else md.

(** [parse_script_metadata], on the text of the script. *)
Definition parse_script_metadata (text : string) : metadata :=
  fold_left parse_line (Py.file_lines text)
    {| description := None; args := []; options := [] |}.

End Parser.

(** ** The runner block and the script transformer of [_create_temp_script] *)

Module Transform.

Definition SCRIPT_RUNNER_START : string := "# <SCRIPT-RUNNER>".
Definition SCRIPT_RUNNER_END : string := "# </SCRIPT-RUNNER>".
Definition USER_SETTING : string := "# USER SETTING".

(** [# <SCRIPT-RUNNER>.*?# </SCRIPT-RUNNER>\n] with [re.DOTALL] *)
Definition runner_pattern : Re.regex :=
  Re.Seq (Re.Lit SCRIPT_RUNNER_START)
 (Re.Seq (Re.LazyStar (Re.Class Re.any))
 (Re.Seq (Re.Lit SCRIPT_RUNNER_END) (Re.Chr (ascii_of_nat 10)))).

(** [re.sub(pattern, "", content, flags=re.DOTALL)] *)
Definition remove_runner_block (content : string) : string :=
  Re.sub_empty runner_pattern content.

(** [opt["name"].replace("-", "_").upper()] *)
Definition var_name (name : string) : string :=
  Py.upper (Py.replace_hyphen name).

(** The line of the runner block for one option. *)
Definition option_line (opt : opt_info) : string :=
  let v := var_name (opt_name opt) in
  if get (opt_flag opt) false then
    v +:+ "=${CLI_" +:+ v +:+ ":-0}" +:+ Py.nl
  else
    let default := get (opt_default opt) "" in
    if negb (String.eqb default "") then
      v +:+ "=${$" +:+ v +:+ ":-${CLI_" +:+ v +:+ ":-" +:+ default +:+ "}}" +:+ Py.nl
    else
      v +:+ "=${$" +:+ v +:+ ":-${CLI_" +:+ v +:+ "}}" +:+ Py.nl.

(** [str(i)] for a position. *)
Definition str_nat (i : nat) : string :=
  DecimalString.NilZero.string_of_uint (Nat.to_uint i).

(** The line of the runner block for the argument at position [i]. *)
Definition arg_line (i : nat) (arg : arg_info) : string :=
  let v := var_name (arg_name arg) in
  let default := get (arg_default arg) "" in
  v +:+ "=${" +:+ str_nat i +:+ ":-" +:+ default +:+ "}" +:+ Py.nl.

(** [for i, arg in enumerate(args, 1)] *)
Fixpoint arg_lines (i : nat) (l : list arg_info) : string :=
  match l with
  | [] => ""
  | a :: l' => arg_line i a +:+ arg_lines (S i) l'
  end.

Fixpoint option_lines (l : list opt_info) : string :=
  match l with
  | [] => ""
  | o :: l' => option_line o +:+ option_lines l'
  end.

Definition block_body (meta : metadata) : string :=
  option_lines (options meta) +:+ arg_lines 1 (args meta).

Definition runner_block (meta : metadata) : string :=
  SCRIPT_RUNNER_START +:+ Py.nl +:+ block_body meta
  +:+ SCRIPT_RUNNER_END +:+ Py.nl +:+ Py.nl.

(** The loop that looks for the line to insert before: the first line
    that is code, or a comment ["# ..."] without ["USER SETTING"]. *)
Definition stops_here (line : string) : bool :=
  let t := Py.strip line in
  (negb (String.eqb t "") && negb (Py.startswith "#" t))
  || (Py.startswith "# " t && negb (Py.contains "USER SETTING" line)).

Fixpoint find_insert_idx (i : nat) (lines : list string) : nat :=
  match lines with
  | [] => 0
  | line :: rest => if stops_here line then i else find_insert_idx (S i) rest
  end.

(** The insertion of [runner_block] into [content]. *)
Definition insert_runner_block (runner_block content : string) : string :=
  if Py.contains USER_SETTING content then
    let parts := Py.split USER_SETTING content in
    if (2 <=? length parts)%nat then
      let after_user_setting := nth 1 parts "" in
      let lines := Py.split Py.nl after_user_setting in
      let insert_idx := find_insert_idx 0 lines in
      let before_insert := Py.join Py.nl (firstn insert_idx lines) in
      let after_insert := Py.join Py.nl (skipn insert_idx lines) in
      nth 0 parts "" +:+ USER_SETTING +:+ before_insert
      +:+ Py.nl +:+ Py.nl +:+ runner_block +:+ after_insert
    else content +:+ Py.nl +:+ runner_block
  else
    let lines := Py.split Py.nl content in
    if Py.startswith "#!" (nth 0 lines "") then
      let insert_content := Py.join Py.nl (skipn 1 lines) in
      nth 0 lines "" +:+ Py.nl +:+ Py.nl +:+ runner_block +:+ insert_content
    else runner_block +:+ content.

(** [new_content] of [_create_temp_script], from the text read. *)
Definition transform (meta : metadata) (content : string) : string :=
  insert_runner_block (runner_block meta) (remove_runner_block content).

End Transform.

(** ** [ScriptCommand]: the command adapter *)

(** The values the CLI framework hands to [handle]: [None], a flag's
    boolean or a text. *)
Inductive pyval : Type :=
| PyNone
| PyBool (b : bool)
| PyStr (s : string).

(** [if value:] *)
Definition truthy (v : pyval) : bool :=
  match v with
  | PyNone => false
  | PyBool b => b
  | PyStr s => negb (String.eqb s "")
  end.

(** [str(value)] *)
Definition py_str (v : pyval) : string :=
  match v with
  | PyNone => "None"
  | PyBool true => "True"
  | PyBool false => "False"
  | PyStr s => s
  end.

(** What cleo's helpers [argument] and [option] are called with. *)
Record cleo_argument : Type := {
  a_name : string;
  a_description : string;
  a_optional : bool;
  a_default : option string }.

Record cleo_option : Type := {
  o_name : string;
  o_short : option string;
  o_description : string;
  o_flag : bool;
  o_value_required : bool;
  o_default : option string }.

Module Command.

(** One turn of the loop of the property [arguments]. *)
Definition build_argument (arg : arg_info) : cleo_argument :=
  let has_default := bool_decide (arg_default arg <> None) in
  let is_optional := get (arg_optional arg) false || has_default in
  {| a_name := arg_name arg;
     a_description := get (arg_description arg) "";
     a_optional := is_optional;
     a_default := if is_optional then arg_default arg else None |}.

Definition arguments (meta : metadata) : list cleo_argument :=
  map build_argument (args meta).

(** The CLI name of an option: [option_name] after the first [if]. *)
Definition effective_name (name : string) : string :=
  if bool_decide (name ∈ CLEO_RESERVED_OPTIONS) then name +:+ "-sh" else name.

(** [short and short in CLEO_RESERVED_SHORTCUTS] *)
Definition shortcut_conflicts (short : option string) : bool :=
  match short with
  | Some s => negb (String.eqb s "") && bool_decide (s ∈ CLEO_RESERVED_SHORTCUTS)
  | None => false
  end.

(** One turn of the loop of the property [options]: the option built and
    the lines printed. *)
Definition build_option (opt : opt_info) : cleo_option * list string :=
  let option_name := effective_name (opt_name opt) in
  let short := opt_short opt in
  let conflict := shortcut_conflicts short in
  let printed :=
    if conflict then
      [ "Warning: Shortcut '-" +:+ get short "" +:+ "' for option '"
        +:+ opt_name opt +:+ "' conflicts with CLI reserved shortcuts.";
        "Use --" +:+ option_name
        +:+ " instead, or choose a different shortcut in your script." ]
    else [] in
  let short := if conflict then None else short in
  let is_flag := get (opt_flag opt) false in
  let default := opt_default opt in
  (if is_flag then
     {| o_name := option_name; o_short := short;
        o_description := get (opt_description opt) "";
        o_flag := true; o_value_required := true; o_default := None |}
   else
     {| o_name := option_name; o_short := short;
        o_description := get (opt_description opt) "";
        o_flag := false;
        o_value_required := bool_decide (default = None);
        o_default := default |},
   printed).

(** The property [options] (the name [options] is the field of the
    schema).  Each turn of its loop ends with a call of cleo's helper
    [option], which is not in this repository and builds the option or
    raises (for an empty name, say): [option_] stands for it.  The
    result is the lines printed and then the options built, or the error
    of the first call that raised. *)
Section Options.

Variables T E : Type.
Variable option_ : cleo_option -> T + E.

Fixpoint options_loop (l : list opt_info) (opts : list T)
  : list string * (list T + E) :=
  match l with
  | [] => ([], inl opts)
  | opt :: l' =>
      let '(call, printed) := build_option opt in
      match option_ call with
      | inl o =>
          let '(printed', r) := options_loop l' (opts ++ [o]) in
          (printed ++ printed', r)
      | inr e => (printed, inr e)
      end
  end.

Definition cli_options (meta : metadata) : list string * (list T + E) :=
  options_loop (options meta) [].

End Options.

Arguments options_loop {T E} option_ l opts.
Arguments cli_options {T E} option_ meta.

(** *** The file system and the effects of [handle] *)

Record file : Type := { content : string; mode : N }.

Inductive exn : Type :=
| FileNotFoundError (path : string)
| OSError (msg : string).

Inductive result (A : Type) : Type :=
| Ok (a : A)
| Raise (e : exn).
Arguments Ok {A} a.
Arguments Raise {A} e.

(** A computation on the files, which returns or raises. *)
Definition M (A : Type) : Type := gmap string file -> gmap string file * result A.

Definition ret {A : Type} (a : A) : M A := fun w => (w, Ok a).

Definition bind {A B : Type} (m : M A) (f : A -> M B) : M B :=
  fun w =>
    match m w with
    | (w', Ok a) => f a w'
    | (w', Raise e) => (w', Raise e)
    end.

Notation "x <- m ;; k" := (bind m (fun x => k))
  (at level 100, m at next level, right associativity).
Notation "m ;;; k" := (bind m (fun _ => k))
  (at level 100, right associativity).

(** [try: body finally: final] *)
Definition try_finally {A : Type} (body : M A) (final : M unit) : M A :=
  fun w =>
    match body w with
    | (w', r) =>
        match final w' with
        | (w'', Ok _) => (w'', r)
        | (w'', Raise e) => (w'', Raise e)
        end
    end.

(** [try: body except: handler; raise] *)
Definition try_except_reraise {A : Type} (body : M A) (handler : M unit) : M A :=
  fun w =>
    match body w with
    | (w', Ok a) => (w', Ok a)
    | (w', Raise e) =>
        match handler w' with
        | (w'', Ok _) => (w'', Raise e)
        | (w'', Raise e') => (w'', Raise e')
        end
    end.

(** [open(path, "r").read()] *)
Definition read_text (path : string) : M string :=
  fun w =>
    match w !! path with
    | Some f => (w, Ok (content f))
    | None => (w, Raise (FileNotFoundError path))
    end.

(** [os.path.exists(path)] *)
Definition exists_ (path : string) : M bool :=
  fun w => (w, Ok (bool_decide (is_Some (w !! path)))).

(** [os.unlink(path)] *)
Definition unlink (path : string) : M unit :=
  fun w =>
    match w !! path with
    | Some _ => (delete path w, Ok tt)
    | None => (w, Raise (FileNotFoundError path))
    end.

(** [temp_file.write(text)] on the file created at [path]. *)
Definition write_text (path text : string) : M unit :=
  fun w =>
    match w !! path with
    | Some f => (<[path := {| content := text; mode := mode f |}]> w, Ok tt)
    | None => (w, Raise (FileNotFoundError path))
    end.

(** [os.chmod(path, m)] *)
Definition chmod (path : string) (m : N) : M unit :=
  fun w =>
    match w !! path with
    | Some f => (<[path := {| content := content f; mode := m |}]> w, Ok tt)
    | None => (w, Raise (FileNotFoundError path))
    end.

Section ScriptCommand.

(** [self.script_path], [self.script_meta] *)
Variable script_path : string.
Variable script_meta : metadata.
(** [self.argument(name)], [self.option(name)] and [os.environ] *)
Variable argument : string -> pyval.
Variable option_value : string -> pyval.
Variable environ : gmap string string.
(** The name [tempfile.mkstemp] chooses, and the run of the child
    process: any effect on the files, then an exit code or an error. *)
Variable mkstemp_name : gmap string file -> string.
Variable subprocess_run : list string -> gmap string string -> M Z.

(** [tempfile.mkstemp(suffix=".sh", prefix="script_runner_")] *)
Definition mkstemp : M string :=
  fun w =>
    let path := mkstemp_name w in
    (<[path := {| content := ""; mode := 384 |}]> w, Ok path).

(** The first loop of [handle]. *)
Definition script_args : list string :=
  fold_left
    (fun acc arg_def =>
       let value := argument (arg_name arg_def) in
       if truthy value then acc ++ [py_str value] else acc)
    (args script_meta) [].

(** The second loop of [handle]. *)
Definition env : gmap string string :=
  fold_left
    (fun env opt_def =>
       let original_name := opt_name opt_def in
       let option_name := effective_name original_name in
       let value := option_value option_name in
       if truthy value then
         let env_name := "CLI_" +:+ Transform.var_name original_name in
         if get (opt_flag opt_def) false then <[env_name := "1"]> env
         else <[env_name := py_str value]> env
       else env)
    (options script_meta) environ.

Definition _create_temp_script : M string :=
  content <- read_text script_path ;;
  let new_content := Transform.transform script_meta content in
  temp_path <- mkstemp ;;
  try_except_reraise
    (write_text temp_path new_content ;;;
     chmod temp_path 493 ;;;
     ret temp_path)
    (e <- exists_ temp_path ;;
     if e then unlink temp_path else ret tt).

(** The files once the script [f] is transformed and written to the
    temporary file. *)
Definition materialized (w : gmap string file) (f : file) : gmap string file :=
  <[mkstemp_name w :=
      {| content := Transform.transform script_meta (content f);
         mode := 493 |}]> w.

Definition handle : M Z :=
  temp_script <- _create_temp_script ;;
  try_finally
    (subprocess_run ("bash" :: temp_script :: script_args) env)
    (e <- exists_ temp_script ;;
     if e then unlink temp_script else ret tt).

End ScriptCommand.

End Command.

(** ** The binding line the specification words for a value option

    Follows the specification, not the source: [V=${V:-${CLI_V:-D}}] for a
    declared default [D], [V=${V:-${CLI_V}}] without one. *)
Definition claimed_option_line (name : string) (default : option string) : string :=
  let v := Transform.var_name name in
  match default with
  | Some d => v +:+ "=${" +:+ v +:+ ":-${CLI_" +:+ v +:+ ":-" +:+ d +:+ "}}"
  | None => v +:+ "=${" +:+ v +:+ ":-${CLI_" +:+ v +:+ "}}"
  end.

(** ** Auxiliary notions for the proofs about the transformer *)

Module Aux.

(** The end marker with its line end, as the runner pattern ends. *)
Definition END_LINE : string := Transform.SCRIPT_RUNNER_END +:+ Py.nl.

(** What is left of [s] after the first end marker line in it. *)
Fixpoint find_end (s : string) : option string :=
  if Py.startswith END_LINE s then Some (Py.drop (String.length END_LINE) s)
  else
    match s with
    | "" => None
    | String _ s' => find_end s'
    end.

(** The first success of [k] on [s] and its suffixes, from the longest. *)
Fixpoint first_suffix {R : Type} (k : string -> option R) (s : string) : option R :=
  match k s with
  | Some x => Some x
  | None =>
      match s with
      | "" => None
      | String _ s' => first_suffix k s'
      end
  end.

(** The number of occurrences of [sub] in [x ++ w] that start in [x]. *)
Fixpoint starting_in (sub x w : string) : nat :=
  match x with
  | "" => 0
  | String _ x' =>
      (if Py.startswith sub (x +:+ w) then 1 else 0) + starting_in sub x' w
  end.

(** A text without line end. *)
Fixpoint one_line (s : string) : bool :=
  match s with
  | "" => true
  | String c s' => negb (Ascii.eqb c (ascii_of_nat 10)) && one_line s'
  end.

(** The text [insert_runner_block] puts before the block, and the text it
    puts after it. *)
Definition before_block (content : string) : string :=
  if Py.contains Transform.USER_SETTING content then
    let parts := Py.split Transform.USER_SETTING content in
    if (2 <=? length parts)%nat then
      let lines := Py.split Py.nl (nth 1 parts "") in
      nth 0 parts "" +:+ Transform.USER_SETTING
      +:+ Py.join Py.nl (firstn (Transform.find_insert_idx 0 lines) lines)
      +:+ Py.nl +:+ Py.nl
    else content +:+ Py.nl
  else
    let lines := Py.split Py.nl content in
    if Py.startswith "#!" (nth 0 lines "") then nth 0 lines "" +:+ Py.nl +:+ Py.nl
    else "".

Definition after_block (content : string) : string :=
  if Py.contains Transform.USER_SETTING content then
    let parts := Py.split Transform.USER_SETTING content in
    if (2 <=? length parts)%nat then
      let lines := Py.split Py.nl (nth 1 parts "") in
      Py.join Py.nl (skipn (Transform.find_insert_idx 0 lines) lines)
    else ""
  else
    let lines := Py.split Py.nl content in
    if Py.startswith "#!" (nth 0 lines "") then Py.join Py.nl (skipn 1 lines)
    else content.

End Aux.

(** ** Sample inputs *)

Definition hello_script : Command.file :=
  {| Command.content := "#!/bin/bash" +:+ Py.nl +:+ "echo hi" +:+ Py.nl;
     Command.mode := 493 |}.

Definition hello_files : gmap string Command.file :=
  {[ "scripts/hello.sh" := hello_script ]}.

Definition no_meta : metadata :=
  {| description := None; args := []; options := [] |}.

Definition sample_meta : metadata :=
  {| description := Some "Sample";
     args := [ {| arg_name := "file"; arg_description := Some "File";
                  arg_optional := None; arg_default := None |} ];
     options := [ {| opt_name := "debug"; opt_description := Some "Debug";
                     opt_short := Some "d"; opt_flag := Some true;
                     opt_default := None |} ] |}.

(** ** [discover_scripts] and [main]: the tool *)

Module Tool.
Import Command.


Section Main.

(** The command line as the framework reads it: the command named, and
    what [self.argument] and [self.option] give for it. *)
Variable command_name : string.
Variable argument : string -> pyval.
Variable option_value : string -> pyval.
Variable environ : gmap string string.
Variable mkstemp_name : gmap string file -> string.
Variable subprocess_run : list string -> gmap string string -> M Z.
(** [Path(scripts_dir).exists()] and the paths that [glob("*.sh")] yields
    there, in its order: directories are not part of the files. *)
Variable dir_exists : string -> bool.
Variable glob_sh : string -> list string.
(** [Path(script_path).stem], of pathlib. *)
Variable stem : string -> string.
(** What the framework does when no command has the name. *)
Variable unknown_command : M Z.






End Main.

End Tool.

(** ** [_update_script_runner_block]: the block written into the script *)

Module Update.

(** What can be raised in [_update_script_runner_block]. *)
Inductive exn : Type :=
| FileNotFoundError (path : string)
| NameError (name : string)
| RuntimeError (msg : string).

Inductive result (A : Type) : Type :=
| Ok (a : A)
| Raise (e : exn).
Arguments Ok {A} a.
Arguments Raise {A} e.

Definition M (A : Type) : Type :=
  gmap string Command.file -> gmap string Command.file * result A.

Definition ret {A : Type} (a : A) : M A := fun w => (w, Ok a).

Definition bind {A B : Type} (m : M A) (f : A -> M B) : M B :=
  fun w =>
    match m w with
    | (w', Ok a) => f a w'
    | (w', Raise e) => (w', Raise e)
    end.

Notation "x <- m ;; k" := (bind m (fun x => k))
  (at level 100, m at next level, right associativity).
Notation "m ;;; k" := (bind m (fun _ => k))
  (at level 100, right associativity).

(** [open(path, "r").read()] *)
Definition read_text (path : string) : M string :=
  fun w =>
    match w !! path with
    | Some f => (w, Ok (Command.content f))
    | None => (w, Raise (FileNotFoundError path))
    end.

(** [open(path, "w")] and [f.write(text)], which the end of the [with]
    block flushes however the block is left: an existing file keeps its
    mode, a new one gets [rw-r--r--]. *)
Definition write_text (path text : string) : M unit :=
  fun w =>
    (<[path := {| Command.content := text;
                  Command.mode := match w !! path with
                                  | Some f => Command.mode f
                                  | None => 420%N
                                  end |}]> w, Ok tt).

(** The value of a name that no assignment of the function and no
    global of the module binds. *)
Definition unbound_name {A : Type} (name : string) : M A :=
  fun w => (w, Raise (NameError name)).

(** [os.path.exists(path)] *)
Definition exists_ (path : string) : M bool :=
  fun w => (w, Ok (bool_decide (is_Some (w !! path)))).

(** [os.unlink(path)] *)
Definition unlink (path : string) : M unit :=
  fun w =>
    match w !! path with
    | Some _ => (delete path w, Ok tt)
    | None => (w, Raise (FileNotFoundError path))
    end.

(** A [raise] without an exception being handled. *)
Definition bare_raise {A : Type} : M A :=
  fun w => (w, Raise (RuntimeError "No active exception to reraise")).

(** The line of the block for the argument at position [i]: here the
    position is written after a [$]. *)
Definition arg_line (i : nat) (arg : arg_info) : string :=
  let v := Transform.var_name (arg_name arg) in
  let default := get (arg_default arg) "" in
  v +:+ "=${$" +:+ Transform.str_nat i +:+ ":-" +:+ default +:+ "}" +:+ Py.nl.

Fixpoint arg_lines (i : nat) (l : list arg_info) : string :=
  match l with
  | [] => ""
  | a :: l' => arg_line i a +:+ arg_lines (S i) l'
  end.

Definition runner_block (meta : metadata) : string :=
  Transform.SCRIPT_RUNNER_START +:+ Py.nl
  +:+ (Transform.option_lines (options meta) +:+ arg_lines 1 (args meta))
  +:+ Transform.SCRIPT_RUNNER_END +:+ Py.nl +:+ Py.nl.

Definition _update_script_runner_block (script_path : string)
    (script_meta : metadata) : M unit :=
  content <- read_text script_path ;;
  let content := Transform.remove_runner_block content in
  let new_content :=
    Transform.insert_runner_block (runner_block script_meta) content in
  write_text script_path new_content ;;;
  temp_path <- unbound_name "temp_path" ;;
  e <- exists_ temp_path ;;
  (if e then unlink temp_path else ret tt) ;;;
  bare_raise.

End Update.

(** ** What [handle] gives the child for one declared option *)

(** The environment variable of an option: [env_name]. *)
Definition env_key (opt : opt_info) : string :=
  "CLI_" +:+ Transform.var_name (opt_name opt).

(** Whether the option came with a true value: [if option_value:]. *)
Definition supplied (option_value : string -> pyval) (opt : opt_info) : bool :=
  truthy (option_value (Command.effective_name (opt_name opt))).

(** The text stored under [env_name]. *)
Definition env_value (option_value : string -> pyval) (opt : opt_info) : string :=
  if get (opt_flag opt) false then "1"
  else py_str (option_value (Command.effective_name (opt_name opt))).

(** ** What one line of a script gives to the metadata *)

(** The argument a line declares, if it is an [@arg] line that matches. *)
Definition arg_of_line (raw : string) : option arg_info :=
  let line := Py.strip raw in
  if Py.startswith "# @arg" line then Parser.parse_arg_line line else None.

(** The option a line declares, if it is an [@option] line that matches. *)
Definition option_of_line (raw : string) : option opt_info :=
  let line := Py.strip raw in
  if Py.startswith "# @option" line then Parser.parse_option_line line else None.

(** The description a line gives, if it is an [@description:] line. *)
Definition description_of_line (raw : string) : option string :=
  let line := Py.strip raw in
  if Py.startswith "# @description:" line
  then Some (Py.strip (Parser.after_colon line)) else None.

(** ** Notions for the greedy repetition of a character class *)

(** The ASCII characters, on which the classes and the upper case of
    this file are those of Python. *)
Definition is_ascii (c : ascii) : bool := (nat_of_ascii c <? 128)%nat.

(** Every character of [s] is in the class [p]. *)
Fixpoint every (p : ascii -> bool) (s : string) : bool :=
  match s with
  | "" => true
  | String a s' => p a && every p s'
  end.

(** [s] is empty or begins with a character outside the class [p]. *)
Definition stops (p : ascii -> bool) (s : string) : bool :=
  match s with
  | "" => true
  | String a _ => negb (p a)
  end.

(** The first success of [k] after a prefix of [s] of characters of the
    class [p], the longest prefix first. *)
Fixpoint longest_first {R : Type} (p : ascii -> bool) (k : string -> option R)
    (s : string) : option R :=
  match s with
  | "" => k ""
  | String a s' =>
      if p a then
        match longest_first p k s' with
        | Some x => Some x
        | None => k s
        end
      else k s
  end.

(** The loop of [Re.run] for [Re.Star r], with its fuel [n]. *)
Definition star_loop {R : Type} (r : Re.regex)
    (k : string -> Re.captures -> option R)
  : nat -> string -> Re.captures -> option R :=
  fix loop (n : nat) (s : string) (c : Re.captures) : option R :=
    match n with
    | O => k s c
    | S n' =>
        match Re.run r s c (fun s' c' =>
                if (String.length s' <? String.length s)%nat
                then loop n' s' c' else None) with
        | Some x => Some x
        | None => k s c
        end
    end.

(** ** Notions for the patterns of the declarations *)

(** [r] matches [u] in front of [w], turning the captures [c] into [c'],
    and this is the first way of matching on which anything that
    succeeds on [w] with [c'] goes on. *)
Definition consumes (r : Re.regex) (u : string) (c c' : Re.captures)
    (w : string) : Prop :=
  forall (R : Type) (K : string -> Re.captures -> option R) (x : R),
    K w c' = Some x -> Re.run r (u +:+ w) c K = Some x.

(** The part [\s+\[([^\]]+)\]] of both patterns, as groups [g] and [gi]. *)
Definition modifiers_re (g gi : nat) : Re.regex :=
  Re.Group g (Re.Seq (Re.Plus (Re.Class Re.space))
             (Re.Seq (Re.Chr "[")
             (Re.Seq (Re.Group gi (Re.Plus (Re.Class (Re.non "]"))))
                     (Re.Chr "]")))).

(** The end [\s*:\s*(.* )] of both patterns, with the group [i]. *)
Definition tail_re (i : nat) : Re.regex :=
  Re.Seq (Re.Star (Re.Class Re.space))
 (Re.Seq (Re.Chr ":")
 (Re.Seq (Re.Star (Re.Class Re.space))
         (Re.Group i (Re.Star (Re.Class Re.dot))))).

(** The option pattern after its first group: [(?:,(\w+))?], the
    modifiers and the end. *)
Definition option_rest : Re.regex :=
  Re.Seq (Re.Opt (Re.Seq (Re.Chr ",") (Re.Group 2 (Re.Plus (Re.Class Re.word)))))
 (Re.Seq (Re.Opt (modifiers_re 3 4)) (tail_re 5)).

(** Whether the group [i] occurs in the pattern [r]. *)
Fixpoint binds (i : nat) (r : Re.regex) : bool :=
  match r with
  | Re.Chr _ | Re.Class _ | Re.Eps => false
  | Re.Seq r1 r2 => binds i r1 || binds i r2
  | Re.Opt r1 | Re.Star r1 | Re.LazyStar r1 => binds i r1
  | Re.Group j r1 => Nat.eqb i j || binds i r1
  end.

(** * Properties *)

(** ** Texts *)

Section StringFacts.

Lemma app_cons (a : ascii) (s t : string) :
  String a s +:+ t = String a (s +:+ t).
Proof. reflexivity. Qed.

Lemma app_nil_l (s : string) : "" +:+ s = s.
Proof. reflexivity. Qed.

Lemma app_nil_r (s : string) : s +:+ "" = s.
Proof.
  induction s as [|a s' IH]; [reflexivity | now rewrite app_cons, IH].
Qed.

Lemma app_assoc (s t u : string) : (s +:+ t) +:+ u = s +:+ (t +:+ u).
Proof.
  induction s as [|a s' IH]; [reflexivity | now rewrite !app_cons, IH].
Qed.

Lemma length_app (s t : string) :
  String.length (s +:+ t) = String.length s + String.length t.
Proof.
  induction s as [|a s' IH]; [reflexivity | rewrite app_cons; simpl; now rewrite IH].
Qed.

End StringFacts.

(** ** The runner block *)

(** The block of the repository's own test: a flag option and an argument. *)
Example runner_block_of_test :
  Transform.runner_block
    {| description := None;
       args := [ {| arg_name := "file"; arg_description := None;
                    arg_optional := None; arg_default := None |} ];
       options := [ {| opt_name := "debug"; opt_description := None;
                       opt_short := None; opt_flag := Some true;
                       opt_default := None |} ] |}
  = "# <SCRIPT-RUNNER>" +:+ Py.nl
    +:+ "DEBUG=${CLI_DEBUG:-0}" +:+ Py.nl
    +:+ "FILE=${1:-}" +:+ Py.nl
    +:+ "# </SCRIPT-RUNNER>" +:+ Py.nl +:+ Py.nl.
Proof. vm_compute. reflexivity. Qed.

(** A value option's line is one character longer than the line the
    specification words, or (for an empty default) one shorter. *)
Lemma option_line_length (opt : opt_info) :
  get (opt_flag opt) false = false ->
  String.length (Transform.option_line opt) <>
  String.length (claimed_option_line (opt_name opt) (opt_default opt) +:+ Py.nl).
Proof.
  intros Hflag. unfold Transform.option_line, claimed_option_line.
  rewrite Hflag. destruct (opt_default opt) as [d|]; simpl get.
  - destruct (String.eqb d "") eqn:Hd; simpl negb; cbv iota.
    + apply String.eqb_eq in Hd. subst d.
      rewrite !length_app. simpl. lia.
    + rewrite !length_app. simpl. lia.
  - simpl. rewrite !length_app. simpl. lia.
Qed.

(** C1 (the code departs from the claim): for the value option [output]
    with default [out] the generated line is
    [OUTPUT=${$OUTPUT:-${CLI_OUTPUT:-out}}], with a [$] before the inner
    name, and not the line [OUTPUT=${OUTPUT:-${CLI_OUTPUT:-out}}] of the
    three-level precedence; without a default the line is
    [OUTPUT=${$OUTPUT:-${CLI_OUTPUT}}]. *)
Theorem option_line_has_stray_dollar :
  let with_default := {| opt_name := "output"; opt_description := None;
                         opt_short := None; opt_flag := Some false;
                         opt_default := Some "out" |} in
  let without := {| opt_name := "output"; opt_description := None;
                    opt_short := None; opt_flag := Some false;
                    opt_default := None |} in
  Transform.option_line with_default
    = "OUTPUT=${$OUTPUT:-${CLI_OUTPUT:-out}}" +:+ Py.nl
  /\ claimed_option_line "output" (Some "out")
    = "OUTPUT=${OUTPUT:-${CLI_OUTPUT:-out}}"
  /\ Transform.option_line with_default
     <> claimed_option_line "output" (Some "out") +:+ Py.nl
  /\ Transform.option_line without
    = "OUTPUT=${$OUTPUT:-${CLI_OUTPUT}}" +:+ Py.nl
  /\ Transform.option_line without
     <> claimed_option_line "output" None +:+ Py.nl.
Proof.
  cbv zeta. repeat split; try reflexivity; intros H; discriminate H.
Qed.

(** ** The parser *)

(** C3 (the code departs from the claim): in a script with the line
    [# @option debug [flag]: Enable debug mode] the first group of the
    option pattern, [[^,]+], runs over the modifier up to the colon: the
    option is parsed with the name [debug [flag]] and without the flag, and
    the block holds [DEBUG [FLAG]=${$DEBUG [FLAG]:-${CLI_DEBUG [FLAG]}}]
    where the claim has [DEBUG=${CLI_DEBUG:-0}]. *)
Theorem flag_without_shortcut_not_parsed :
  let script := "#!/bin/bash" +:+ Py.nl
                +:+ "# @option debug [flag]: Enable debug mode" +:+ Py.nl
                +:+ "echo hi" +:+ Py.nl in
  let meta := Parser.parse_script_metadata script in
  options meta = [ {| opt_name := "debug [flag]";
                      opt_description := Some "Enable debug mode";
                      opt_short := None; opt_flag := Some false;
                      opt_default := None |} ]
  /\ Transform.block_body meta
     = "DEBUG [FLAG]=${$DEBUG [FLAG]:-${CLI_DEBUG [FLAG]}}" +:+ Py.nl
  /\ Py.contains "DEBUG=${CLI_DEBUG:-0}" (Transform.transform meta script) = false.
Proof. cbv zeta. repeat split; vm_compute; reflexivity. Qed.

(** The same declaration with a shortcut is parsed as a flag. *)
Example flag_with_shortcut_parsed :
  Parser.parse_option_line "# @option debug,d [flag]: Enable debug mode"
  = Some {| opt_name := "debug"; opt_description := Some "Enable debug mode";
            opt_short := Some "d"; opt_flag := Some true; opt_default := None |}.
Proof. vm_compute. reflexivity. Qed.

(** The branches on the modifier text: when the option pattern captures a
    modifier text (its fourth group) that contains [flag], the parsed
    option is a flag and has no default, whether or not the text also
    contains [default=]. *)
Lemma flag_wins_over_default (line : string) (c : Re.captures)
    (rest modifiers : string) :
  Re.rmatch Parser.option_pattern line = Some (c, rest) ->
  Re.group 4 c = Some modifiers ->
  Py.contains "flag" modifiers = true ->
  exists opt, Parser.parse_option_line line = Some opt
              /\ opt_flag opt = Some true /\ opt_default opt = None.
Proof.
  intros Hm Hg Hflag. unfold Parser.parse_option_line.
  rewrite Hm, Hg. cbv zeta. simpl get at 1.
  assert (Hne : truthy_str (Some modifiers) = true).
  { simpl. destruct modifiers; [discriminate Hflag | reflexivity]. }
  rewrite Hne. simpl get. rewrite Hflag.
  eexists. split; [reflexivity | split; reflexivity].
Qed.

(** C8 (the code departs from the claim): a declaration with both
    modifiers and a shortcut, [# @option out,o [flag default=x]: Output],
    is parsed as a flag without default; the same declaration without a
    shortcut is not: as for C3, the first group of the option pattern runs
    over the modifiers, the name is [out [flag default=x]], no modifier
    text is left and the option is a value option without default. *)
Theorem flag_and_default_without_shortcut :
  Parser.parse_option_line "# @option out,o [flag default=x]: Output"
  = Some {| opt_name := "out"; opt_description := Some "Output";
            opt_short := Some "o"; opt_flag := Some true;
            opt_default := None |}
  /\ Re.rmatch Parser.option_pattern "# @option out [flag default=x]: Output"
     = Some ([(5, "Output"); (1, "out [flag default=x]")], "")
  /\ Parser.parse_option_line "# @option out [flag default=x]: Output"
     = Some {| opt_name := "out [flag default=x]";
               opt_description := Some "Output";
               opt_short := None; opt_flag := Some false;
               opt_default := None |}.
Proof. repeat split; vm_compute; reflexivity. Qed.

(** ** The command adapter *)

(** C7: an argument with a default is built optional, whatever its
    [optional] entry says, and with the declared default. *)
Theorem default_makes_optional (arg : arg_info) (d : string) :
  arg_default arg = Some d ->
  a_optional (Command.build_argument arg) = true
  /\ a_default (Command.build_argument arg) = Some d.
Proof.
  intros Hd. unfold Command.build_argument. simpl. rewrite Hd.
  rewrite bool_decide_eq_true_2 by discriminate.
  rewrite orb_true_r. split; reflexivity.
Qed.

Lemma default_makes_optional_witness :
  let arg := {| arg_name := "file"; arg_description := Some "the file";
                arg_optional := None; arg_default := Some "out.txt" |} in
  a_optional (Command.build_argument arg) = true
  /\ a_default (Command.build_argument arg) = Some "out.txt".
Proof.
  exact (default_makes_optional
           {| arg_name := "file"; arg_description := Some "the file";
              arg_optional := None; arg_default := Some "out.txt" |}
           "out.txt" eq_refl).
Defined.

Lemma reserved_shortcut_nonempty (s : string) :
  s ∈ CLEO_RESERVED_SHORTCUTS -> String.eqb s "" = false.
Proof.
  intros Hin. apply String.eqb_neq. intros ->.
  assert (Hno : bool_decide ("" ∈ CLEO_RESERVED_SHORTCUTS) = false)
    by (vm_compute; reflexivity).
  apply bool_decide_eq_false in Hno. contradiction.
Qed.

(** C4: the CLI name of an option is its declared name, with [-sh]
    appended exactly when the declared name is reserved; its shortcut is
    the declared one, dropped exactly when it is reserved; so [help] with
    shortcut [h] becomes [help-sh] without a shortcut. *)
Theorem conflict_resolution (opt : opt_info) :
  let o := fst (Command.build_option opt) in
  (opt_name opt ∈ CLEO_RESERVED_OPTIONS -> o_name o = opt_name opt +:+ "-sh")
  /\ (opt_name opt ∉ CLEO_RESERVED_OPTIONS -> o_name o = opt_name opt)
  /\ (forall s, opt_short opt = Some s -> s ∈ CLEO_RESERVED_SHORTCUTS ->
      o_short o = None)
  /\ (forall s, opt_short opt = Some s -> s ∉ CLEO_RESERVED_SHORTCUTS ->
      o_short o = Some s)
  /\ (opt_short opt = None -> o_short o = None)
  /\ (opt_name opt = "help" -> opt_short opt = Some "h" ->
      o_name o = "help-sh" /\ o_short o = None).
Proof.
  cbv zeta.
  assert (Hname : o_name (fst (Command.build_option opt))
                  = Command.effective_name (opt_name opt)).
  { unfold Command.build_option. simpl. destruct (get (opt_flag opt) false); reflexivity. }
  assert (Hshort : o_short (fst (Command.build_option opt))
                   = if Command.shortcut_conflicts (opt_short opt)
                     then None else opt_short opt).
  { unfold Command.build_option. simpl. destruct (get (opt_flag opt) false); reflexivity. }
  rewrite Hname, Hshort. unfold Command.effective_name, Command.shortcut_conflicts.
  split; [|split; [|split; [|split; [|split]]]].
  - intros Hin. now rewrite bool_decide_eq_true_2.
  - intros Hnin. now rewrite bool_decide_eq_false_2.
  - intros s -> Hin. rewrite reserved_shortcut_nonempty by assumption.
    now rewrite bool_decide_eq_true_2.
  - intros s -> Hnin. rewrite bool_decide_eq_false_2 by assumption.
    now rewrite andb_false_r.
  - now intros ->.
  - intros -> ->. split; vm_compute; reflexivity.
Qed.

Lemma conflict_resolution_witness :
  let opt := {| opt_name := "help"; opt_description := None;
                opt_short := Some "h"; opt_flag := Some true;
                opt_default := None |} in
  o_name (fst (Command.build_option opt)) = "help-sh"
  /\ o_short (fst (Command.build_option opt)) = None.
Proof.
  cbv zeta.
  exact (proj2 (proj2 (proj2 (proj2 (proj2
           (conflict_resolution
              {| opt_name := "help"; opt_description := None;
                 opt_short := Some "h"; opt_flag := Some true;
                 opt_default := None |})))))
           eq_refl eq_refl).
Defined.

(** The first loop of [handle] is a filter followed by a map. *)
Lemma script_args_fold (argument : string -> pyval) (l : list arg_info)
    (acc : list string) :
  fold_left
    (fun acc arg_def =>
       let value := argument (arg_name arg_def) in
       if truthy value then acc ++ [py_str value] else acc) l acc
  = acc ++ map py_str (List.filter truthy (map (fun a => argument (arg_name a)) l)).
Proof.
  revert acc. induction l as [|a l IH]; intros acc; simpl.
  - now rewrite List.app_nil_r.
  - rewrite IH. destruct (truthy (argument (arg_name a))); simpl.
    + now rewrite <- List.app_assoc.
    + reflexivity.
Qed.





(** A flag given on the command line reaches the script as [CLI_<NAME>=1],
    under the declared name even when the CLI name got the suffix. *)
Example env_of_reserved_flag :
  Command.env
    {| description := None; args := [];
       options := [ {| opt_name := "verbose"; opt_description := None;
                       opt_short := Some "v"; opt_flag := Some true;
                       opt_default := None |} ] |}
    (fun name => if String.eqb name "verbose-sh" then PyBool true else PyNone)
    ∅ !! "CLI_VERBOSE" = Some "1".
Proof. vm_compute. reflexivity. Qed.

Section Handle.

Variable script_path : string.
Variable script_meta : metadata.
Variable argument : string -> pyval.
Variable option_value : string -> pyval.
Variable environ : gmap string string.
Variable mkstemp_name : gmap string Command.file -> string.
Variable subprocess_run :
  list string -> gmap string string -> Command.M Z.

(** A readable script is transformed into an executable file under the
    name [mkstemp] chose. *)
Lemma create_temp_script_ok (w : gmap string Command.file) (f : Command.file) :
  w !! script_path = Some f ->
  Command._create_temp_script script_path script_meta mkstemp_name w
  = (Command.materialized script_meta mkstemp_name w f, Command.Ok (mkstemp_name w)).
Proof.
  intros Hf.
  unfold Command._create_temp_script, Command.bind, Command.read_text.
  rewrite Hf. unfold Command.mkstemp, Command.try_except_reraise,
    Command.bind, Command.write_text, Command.chmod, Command.ret.
  rewrite lookup_insert_eq. simpl. rewrite lookup_insert_eq. simpl.
  unfold Command.materialized. now rewrite !insert_insert_eq.
Qed.

(** After the [finally] clause the file is gone. *)
Lemma cleanup_removes (p : string) (w : gmap string Command.file) :
  (Command.bind (Command.exists_ p)
     (fun e => if e then Command.unlink p else Command.ret tt) w).1 !! p = None.
Proof.
  unfold Command.bind, Command.exists_, Command.unlink, Command.ret.
  destruct (w !! p) as [g|] eqn:Hp.
  - rewrite bool_decide_eq_true_2 by eauto. cbv beta iota. rewrite Hp.
    apply lookup_delete_eq.
  - rewrite bool_decide_eq_false_2 by (intros [? ?]; discriminate).
    exact Hp.
Qed.


(** C5: when the script can be read, [handle] writes the transformed
    script to the temporary file, and that file does not exist once
    [handle] is over, whether the child returned an exit code (zero or
    not) or its launch raised. *)
Theorem temp_script_removed (w : gmap string Command.file) (f : Command.file) :
  w !! script_path = Some f ->
  Command._create_temp_script script_path script_meta mkstemp_name w
  = (Command.materialized script_meta mkstemp_name w f, Command.Ok (mkstemp_name w))
  /\ (Command.handle script_path script_meta argument option_value environ
        mkstemp_name subprocess_run w).1 !! mkstemp_name w = None.
Proof.
  intros Hf. split; [now apply create_temp_script_ok|].
  unfold Command.handle. unfold Command.bind at 1.
  rewrite (create_temp_script_ok w f Hf). unfold Command.try_finally.
  destruct (subprocess_run _ _ (Command.materialized script_meta mkstemp_name w f)) as [w2 r].
  pose proof (cleanup_removes (mkstemp_name w) w2) as Hgone.
  destruct (Command.bind _ _ w2) as [w3 [[]|e]]; exact Hgone.
Qed.


End Handle.

Lemma temp_script_removed_witness :
  (Command.handle "scripts/hello.sh" no_meta (fun _ => PyNone) (fun _ => PyNone) ∅
     (fun _ => "/tmp/script_runner_1.sh")
     (fun _ _ w => (w, Command.Raise (Command.OSError "bash: not found")))
     hello_files).1 !! "/tmp/script_runner_1.sh" = None.
Proof.
  exact (proj2 (temp_script_removed "scripts/hello.sh" no_meta
                  (fun _ => PyNone) (fun _ => PyNone) ∅
                  (fun _ => "/tmp/script_runner_1.sh")
                  (fun _ _ w => (w, Command.Raise (Command.OSError "bash: not found")))
                  hello_files hello_script
                  (lookup_singleton_eq "scripts/hello.sh" hello_script))).
Defined.


(** ** The exit status of the tool *)






(** ** The script transformer *)

(** C6 (the code departs from the claim): the text is split at every
    user-setting marker and only the first two pieces are used, so when
    the marker occurs twice everything from its second occurrence on is
    dropped: here the line [echo hi] of the script is not in the output. *)
Theorem second_user_setting_marker_drops_text :
  let script := "# USER SETTING" +:+ Py.nl +:+ "A=1" +:+ Py.nl
                +:+ "# USER SETTING" +:+ Py.nl +:+ "echo hi" +:+ Py.nl in
  Py.split Transform.USER_SETTING script
    = [ ""; Py.nl +:+ "A=1" +:+ Py.nl; Py.nl +:+ "echo hi" +:+ Py.nl ]
  /\ Transform.transform no_meta script
     = "# USER SETTING" +:+ Py.nl +:+ Py.nl
       +:+ "# <SCRIPT-RUNNER>" +:+ Py.nl +:+ "# </SCRIPT-RUNNER>" +:+ Py.nl
       +:+ Py.nl +:+ "A=1" +:+ Py.nl
  /\ Py.contains "echo hi" script = true
  /\ Py.contains "echo hi" (Transform.transform no_meta script) = false.
Proof. cbv zeta. repeat split; vm_compute; reflexivity. Qed.

(** ** Removing and inserting the runner block *)

Section TextFacts.

Lemma startswith_app (p q s : string) :
  Py.startswith (p +:+ q) s
  = Py.startswith p s && Py.startswith q (Py.drop (String.length p) s).
Proof.
  revert s. induction p as [|a p IH]; intros s.
  - reflexivity.
  - rewrite app_cons. simpl. destruct s as [|b s]; [reflexivity|].
    destruct (Ascii.eqb a b); [apply IH | reflexivity].
Qed.

Lemma startswith_self (p s : string) : Py.startswith p (p +:+ s) = true.
Proof.
  induction p as [|a p IH]; [reflexivity|].
  rewrite app_cons. simpl. now rewrite Ascii.eqb_refl.
Qed.

Lemma drop_app (p s : string) : Py.drop (String.length p) (p +:+ s) = s.
Proof. induction p as [|a p IH]; [reflexivity | rewrite app_cons; exact IH]. Qed.

Lemma drop_add (n m : nat) (s : string) :
  Py.drop (n + m) s = Py.drop m (Py.drop n s).
Proof.
  revert s. induction n as [|n IH]; intros s; [reflexivity|].
  destruct s as [|a s]; simpl; [now destruct m | apply IH].
Qed.

Lemma startswith_drop (p s : string) :
  Py.startswith p s = true -> s = p +:+ Py.drop (String.length p) s.
Proof.
  revert s. induction p as [|a p IH]; intros s H; [reflexivity|].
  destruct s as [|b s]; [discriminate|]. simpl in H.
  destruct (Ascii.eqb_spec a b) as [->|]; [|discriminate].
  rewrite app_cons. simpl. f_equal. now apply IH.
Qed.

Lemma startswith_longer (p s t : string) :
  Py.startswith p s = true -> Py.startswith p (s +:+ t) = true.
Proof.
  revert s. induction p as [|a p IH]; intros s H; [reflexivity|].
  destruct s as [|b s]; [discriminate|]. rewrite app_cons. simpl in *.
  destruct (Ascii.eqb a b); [now apply IH | discriminate].
Qed.

(** A text without line end does not reach over a line end. *)
Lemma startswith_line (p u w : string) :
  Aux.one_line p = true ->
  Py.startswith p (u +:+ Py.nl +:+ w) = Py.startswith p u.
Proof.
  revert u. induction p as [|a p IH]; intros u Hp; [reflexivity|].
  simpl in Hp. apply andb_true_iff in Hp as [Ha Hp].
  destruct u as [|b u].
  - simpl. destruct (Ascii.eqb_spec a (ascii_of_nat 10)) as [->|]; [discriminate | reflexivity].
  - rewrite app_cons. simpl. destruct (Ascii.eqb a b); [now apply IH | reflexivity].
Qed.

End TextFacts.

Section PatternFacts.

Lemma run_lit {R : Type} (lit s : string) (c : Re.captures)
    (k : string -> Re.captures -> option R) :
  Re.run (Re.Lit lit) s c k
  = if Py.startswith lit s then k (Py.drop (String.length lit) s) c else None.
Proof.
  revert s. induction lit as [|a lit IH]; intros s; simpl.
  - reflexivity.
  - destruct s as [|b s]; [reflexivity|].
    destruct (Ascii.eqb a b); [apply IH | reflexivity].
Qed.

(** The end of the runner pattern: the end marker and a line end. *)
Lemma run_end_line (s : string) (c : Re.captures) :
  Re.run (Re.Seq (Re.Lit Transform.SCRIPT_RUNNER_END) (Re.Chr (ascii_of_nat 10)))
    s c (fun s' c' => Some (c', s'))
  = if Py.startswith Aux.END_LINE s
    then Some (c, Py.drop (String.length Aux.END_LINE) s) else None.
Proof.
  change (Re.run (Re.Seq ?a ?b) s c ?k)
    with (Re.run a s c (fun s' c' => Re.run b s' c' k)).
  rewrite run_lit. unfold Aux.END_LINE. rewrite startswith_app, length_app, drop_add.
  destruct (Py.startswith Transform.SCRIPT_RUNNER_END s); cbn [andb];
    [|reflexivity].
  destruct (Py.drop _ s) as [|b t]; [reflexivity|].
  cbn [Re.run Py.startswith Py.nl Py.drop String.length].
  destruct (Ascii.eqb _ b); reflexivity.
Qed.

(** The non-greedy [.*?] under [re.DOTALL] tries what follows it at the
    current place, then one character further, and so on. *)
Lemma run_lazy_any {R : Type} (s : string) (c : Re.captures)
    (k : string -> Re.captures -> option R) :
  Re.run (Re.LazyStar (Re.Class Re.any)) s c k
  = Aux.first_suffix (fun s' => k s' c) s.
Proof.
  cbn [Re.run].
  assert (H : String.length s <= String.length s) by lia. revert H.
  generalize (String.length s) at 2 3. intros n. revert s.
  induction n as [|n IH]; intros s Hn.
  - destruct s as [|a s]; [|simpl in Hn; lia].
    simpl. destruct (k "" c); reflexivity.
  - destruct s as [|a s].
    + simpl. destruct (k "" c); reflexivity.
    + cbn [Aux.first_suffix]. destruct (k (String a s) c); [reflexivity|].
      unfold Re.any at 1. cbv beta iota.
      replace (String.length s <? String.length (String a s))%nat with true
        by (symmetry; apply Nat.ltb_lt; simpl; lia).
      apply IH. simpl in Hn. lia.
Qed.

Lemma first_suffix_ext {R : Type} (k1 k2 : string -> option R) (s : string) :
  (forall t, k1 t = k2 t) -> Aux.first_suffix k1 s = Aux.first_suffix k2 s.
Proof.
  intros Hk. induction s as [|a s IH]; cbn [Aux.first_suffix]; rewrite Hk.
  - reflexivity.
  - now rewrite IH.
Qed.

Lemma first_suffix_find_end (s : string) (c : Re.captures) :
  Aux.first_suffix
    (fun s' => if Py.startswith Aux.END_LINE s'
               then Some (c, Py.drop (String.length Aux.END_LINE) s') else None) s
  = option_map (fun rest => (c, rest)) (Aux.find_end s).
Proof.
  induction s as [|a s IH].
  - reflexivity.
  - cbn [Aux.first_suffix Aux.find_end].
    destruct (Py.startswith Aux.END_LINE (String a s)); [reflexivity | exact IH].
Qed.

(** The runner pattern matches at the start of [s] when [s] starts with
    the start marker and an end marker line follows; the match ends with
    the first such line. *)
Lemma rmatch_runner_pattern (s : string) :
  Re.rmatch Transform.runner_pattern s
  = if Py.startswith Transform.SCRIPT_RUNNER_START s
    then option_map (fun rest => ([], rest))
           (Aux.find_end
              (Py.drop (String.length Transform.SCRIPT_RUNNER_START) s))
    else None.
Proof.
  unfold Re.rmatch, Transform.runner_pattern.
  change (Re.run (Re.Seq ?a ?b) s [] ?k)
    with (Re.run a s [] (fun s' c' => Re.run b s' c' k)).
  rewrite run_lit.
  destruct (Py.startswith Transform.SCRIPT_RUNNER_START s); [|reflexivity].
  change (Re.run (Re.Seq ?a ?b) ?t [] ?k)
    with (Re.run a t [] (fun s' c' => Re.run b s' c' k)).
  rewrite run_lazy_any.
  rewrite <- first_suffix_find_end. apply first_suffix_ext.
  intros t. apply run_end_line.
Qed.

End PatternFacts.

Section RemoveFacts.

Lemma sub_go_skip (r : Re.regex) (k : nat) (s : string) :
  Re.sub_go r k s = Re.sub_go r 0 (Py.drop k s).
Proof.
  revert k. induction s as [|a s IH]; intros [|k]; try reflexivity.
  cbn [Re.sub_go Py.drop]. apply IH.
Qed.

Lemma remove_no_match (a : ascii) (s : string) :
  Py.startswith Transform.SCRIPT_RUNNER_START (String a s) = false ->
  Transform.remove_runner_block (String a s)
  = String a (Transform.remove_runner_block s).
Proof.
  intros H. unfold Transform.remove_runner_block, Re.sub_empty.
  cbn [Re.sub_go]. rewrite rmatch_runner_pattern, H. reflexivity.
Qed.

(** A text without start marker is left as it is. *)
Lemma remove_none (s : string) :
  Py.occurrences Transform.SCRIPT_RUNNER_START s = 0 ->
  Transform.remove_runner_block s = s.
Proof.
  induction s as [|a s IH]; intros H; [reflexivity|].
  cbn [Py.occurrences] in H.
  destruct (Py.startswith Transform.SCRIPT_RUNNER_START (String a s)) eqn:Hs;
    [discriminate|].
  rewrite remove_no_match by assumption. f_equal. apply IH. exact H.
Qed.

(** The part of a text before the first start marker is left as it is. *)
Lemma remove_before (x w : string) :
  Aux.starting_in Transform.SCRIPT_RUNNER_START x w = 0 ->
  Transform.remove_runner_block (x +:+ w)
  = x +:+ Transform.remove_runner_block w.
Proof.
  induction x as [|a x IH]; intros H; [reflexivity|].
  cbn [Aux.starting_in] in H.
  destruct (Py.startswith Transform.SCRIPT_RUNNER_START (String a x +:+ w)) eqn:Hs;
    [discriminate|].
  rewrite app_cons in Hs. rewrite !app_cons, remove_no_match by assumption.
  f_equal. apply IH. exact H.
Qed.

Lemma find_end_here (rest : string) :
  Aux.find_end (Aux.END_LINE +:+ rest) = Some rest.
Proof.
  destruct (Aux.END_LINE +:+ rest) as [|a t] eqn:Ht; [discriminate Ht|].
  cbn [Aux.find_end]. rewrite <- Ht, startswith_self, drop_app. reflexivity.
Qed.

Lemma find_end_after (x w : string) :
  Aux.starting_in Aux.END_LINE x w = 0 ->
  Aux.find_end (x +:+ w) = Aux.find_end w.
Proof.
  induction x as [|a x IH]; intros H; [reflexivity|].
  cbn [Aux.starting_in] in H.
  destruct (Py.startswith Aux.END_LINE (String a x +:+ w)) eqn:Hs; [discriminate|].
  rewrite app_cons in Hs. rewrite app_cons. cbn [Aux.find_end].
  rewrite Hs. apply IH. exact H.
Qed.

(** A block in front, from the start marker to the first end marker line,
    is deleted. *)
Lemma remove_block (x rest : string) :
  Aux.starting_in Aux.END_LINE x (Aux.END_LINE +:+ rest) = 0 ->
  Transform.remove_runner_block
    (Transform.SCRIPT_RUNNER_START +:+ x +:+ Aux.END_LINE +:+ rest)
  = Transform.remove_runner_block rest.
Proof.
  intros Hx.
  set (s := Transform.SCRIPT_RUNNER_START +:+ x +:+ Aux.END_LINE +:+ rest).
  assert (Hm : Re.rmatch Transform.runner_pattern s = Some ([], rest)).
  { rewrite rmatch_runner_pattern. unfold s.
    rewrite startswith_self, drop_app, find_end_after by assumption.
    now rewrite find_end_here. }
  assert (Hlen : String.length s - String.length rest
                 = S (16 + String.length x + 19)).
  { unfold s. rewrite !length_app. simpl. lia. }
  assert (Hdrop : Py.drop (S (16 + String.length x + 19)) s = rest).
  { unfold s.
    replace (S (16 + String.length x + 19))
      with (String.length (Transform.SCRIPT_RUNNER_START +:+ x +:+ Aux.END_LINE))
      by (rewrite !length_app; simpl; lia).
    rewrite <- (drop_app (Transform.SCRIPT_RUNNER_START +:+ x +:+ Aux.END_LINE) rest) at 2.
    now rewrite !app_assoc. }
  unfold Transform.remove_runner_block, Re.sub_empty in *.
  destruct s as [|a t] eqn:Hs; [discriminate Hm|].
  cbn [Re.sub_go]. rewrite Hm, Hlen, sub_go_skip.
  cbn [Py.drop] in Hdrop. now rewrite Hdrop.
Qed.

End RemoveFacts.

Section OccurrenceFacts.

Variable sub : string.

Lemma occurrences_app (x w : string) :
  Py.occurrences sub (x +:+ w) = Aux.starting_in sub x w + Py.occurrences sub w.
Proof.
  induction x as [|a x IH]; [reflexivity|].
  cbn [Aux.starting_in]. rewrite app_cons. cbn [Py.occurrences].
  rewrite IH. lia.
Qed.

Hypothesis sub_one_line : Aux.one_line sub = true.
Hypothesis sub_not_empty : sub <> "".

Lemma startswith_empty : Py.startswith sub "" = false.
Proof. destruct sub; [contradiction | reflexivity]. Qed.

Lemma starting_in_line (u w : string) :
  Aux.starting_in sub (u +:+ Py.nl) w = Py.occurrences sub u.
Proof.
  induction u as [|a u IH].
  - rewrite app_nil_l. unfold Py.nl at 1.
    cbn [Aux.starting_in Py.occurrences].
    change (String (ascii_of_nat 10) "" +:+ w) with ("" +:+ Py.nl +:+ w).
    rewrite startswith_line, startswith_empty by assumption. reflexivity.
  - rewrite app_cons. cbn [Aux.starting_in Py.occurrences].
    rewrite IH, <- app_cons, app_assoc, startswith_line by assumption.
    reflexivity.
Qed.

(** Occurrences do not reach over a line end. *)
Lemma occurrences_line (u w : string) :
  Py.occurrences sub (u +:+ Py.nl +:+ w)
  = Py.occurrences sub u + Py.occurrences sub w.
Proof. now rewrite <- app_assoc, occurrences_app, starting_in_line. Qed.

Lemma occurrences_prefix (x w : string) :
  Py.occurrences sub x <= Aux.starting_in sub x w.
Proof.
  induction x as [|a x IH].
  - cbn [Py.occurrences]. rewrite startswith_empty. simpl. lia.
  - cbn [Aux.starting_in Py.occurrences].
    destruct (Py.startswith sub (String a x)) eqn:Hs.
    + rewrite (startswith_longer _ _ w Hs). lia.
    + destruct (Py.startswith sub (String a x +:+ w)); lia.
Qed.

(** A text without occurrence has none in any of its parts. *)
Lemma occurrences_part (u m v : string) :
  Py.occurrences sub (u +:+ m +:+ v) = 0 -> Py.occurrences sub m = 0.
Proof.
  rewrite occurrences_app, occurrences_app. intros H.
  pose proof (occurrences_prefix m v). lia.
Qed.

End OccurrenceFacts.

Section SplitFacts.

Lemma split_go_not_nil (sep : string) (k : nat) (s : string) :
  Py.split_go sep k s <> [].
Proof.
  revert k. induction s as [|a s IH]; intros k; [discriminate|].
  cbn [Py.split_go]. destruct k as [|k]; [|apply IH].
  destruct (Py.startswith sep (String a s)); [discriminate|].
  destruct (Py.split_go sep 0 s); discriminate.
Qed.

Lemma join_cons (sep p : string) (ps : list string) :
  ps <> [] -> Py.join sep (p :: ps) = p +:+ sep +:+ Py.join sep ps.
Proof. destruct ps; [contradiction | reflexivity]. Qed.

Lemma join_char (sep : string) (a : ascii) (p : string) (ps : list string) :
  Py.join sep (String a p :: ps) = String a (Py.join sep (p :: ps)).
Proof. destruct ps; reflexivity. Qed.

Lemma join_split_go (sep : string) (k : nat) (s : string) :
  sep <> "" -> Py.join sep (Py.split_go sep k s) = Py.drop k s.
Proof.
  intros Hsep. revert k. induction s as [|a s IH]; intros k.
  - destruct k; reflexivity.
  - cbn [Py.split_go]. destruct k as [|k]; [|apply IH].
    destruct (Py.startswith sep (String a s)) eqn:Hs.
    + rewrite join_cons by apply split_go_not_nil. rewrite IH.
      apply startswith_drop in Hs.
      destruct sep as [|b sep]; [contradiction|].
      cbn [String.length Py.drop] in Hs |- *.
      rewrite app_nil_l. simpl Nat.sub. rewrite Nat.sub_0_r.
      symmetry. exact Hs.
    + specialize (IH 0). cbn [Py.drop] in IH |- *.
      destruct (Py.split_go sep 0 s) as [|p ps] eqn:Hp.
      * now apply split_go_not_nil in Hp.
      * now rewrite join_char, IH.
Qed.

(** Joining the pieces of a split gives the text back. *)
Lemma join_split (sep s : string) :
  sep <> "" -> Py.join sep (Py.split sep s) = s.
Proof. intros H. unfold Py.split. now rewrite join_split_go. Qed.

Lemma join_firstn_skipn (sep : string) (i : nat) (l : list string) :
  0 < i < length l ->
  Py.join sep l
  = Py.join sep (firstn i l) +:+ sep +:+ Py.join sep (skipn i l).
Proof.
  revert i. induction l as [|p l IH]; intros i Hi; [simpl in Hi; lia|].
  destruct i as [|i]; [lia|]. simpl in Hi.
  destruct i as [|i].
  - cbn [firstn skipn]. apply join_cons. destruct l; [simpl in Hi; lia | discriminate].
  - rewrite join_cons by (destruct l; [simpl in Hi; lia | discriminate]).
    rewrite (IH (S i)) by lia.
    cbn [firstn skipn].
    rewrite (join_cons sep p (firstn (S i) l))
      by (destruct l; [simpl in Hi; lia | discriminate]).
    now rewrite !app_assoc.
Qed.

Lemma find_insert_idx_bound (i : nat) (lines : list string) :
  Transform.find_insert_idx i lines = 0
  \/ i <= Transform.find_insert_idx i lines < i + length lines.
Proof.
  revert i. induction lines as [|l lines IH]; intros i; [now left|].
  cbn [Transform.find_insert_idx length].
  destruct (Transform.stops_here l); [right; lia|].
  destruct (IH (S i)) as [H|H]; [now left | right; lia].
Qed.

End SplitFacts.

Section InsertFacts.

(** The block is inserted between two parts of the text. *)
Lemma insert_split (b c : string) :
  Transform.insert_runner_block b c
  = Aux.before_block c +:+ b +:+ Aux.after_block c.
Proof.
  unfold Transform.insert_runner_block, Aux.before_block, Aux.after_block.
  destruct (Py.contains Transform.USER_SETTING c).
  - destruct (2 <=? length (Py.split Transform.USER_SETTING c))%nat.
    + now rewrite !app_assoc.
    + now rewrite !app_assoc, app_nil_r.
  - destruct (Py.startswith "#!" (nth 0 (Py.split Py.nl c) "")).
    + now rewrite !app_assoc.
    + reflexivity.
Qed.

Lemma nl_not_empty : Py.nl <> "".
Proof. discriminate. Qed.

Lemma user_setting_not_empty : Transform.USER_SETTING <> "".
Proof. discriminate. Qed.

Lemma join_head (sep p : string) (ps : list string) :
  exists v, Py.join sep (p :: ps) = p +:+ v.
Proof.
  destruct ps as [|q ps].
  - exists "". simpl. now rewrite app_nil_r.
  - eexists. reflexivity.
Qed.

(** Where the block goes: at the very start, or after a prefix [r] of the
    text, followed by one or two line ends; what comes after the block is
    a later part of the text. *)
Lemma insert_place (c : string) :
  (Aux.before_block c = "" /\ Aux.after_block c = c)
  \/ exists r m v,
       c = r +:+ m +:+ Aux.after_block c +:+ v
       /\ (m = "" \/ m = Py.nl)
       /\ (Aux.before_block c = r +:+ Py.nl
           \/ Aux.before_block c = r +:+ Py.nl +:+ Py.nl).
Proof.
  unfold Aux.before_block, Aux.after_block.
  destruct (Py.contains Transform.USER_SETTING c).
  - pose proof (join_split Transform.USER_SETTING c user_setting_not_empty) as Hc.
    destruct (Py.split Transform.USER_SETTING c) as [|p0 [|p1 more]] eqn:Hparts.
    + right. exists c, "", "". cbn [length Nat.leb].
      rewrite app_nil_l, app_nil_r. auto.
    + right. exists c, "", "". cbn [length Nat.leb].
      rewrite app_nil_l, app_nil_r. auto.
    + right. cbn [length Nat.leb nth].
      rewrite join_cons in Hc by discriminate.
      destruct (join_head Transform.USER_SETTING p1 more) as [v1 Hv1].
      rewrite Hv1 in Hc.
      pose proof (join_split Py.nl p1 nl_not_empty) as Hp1.
      set (lines := Py.split Py.nl p1) in *.
      destruct (find_insert_idx_bound 0 lines) as [Hidx|Hidx].
      * rewrite Hidx, firstn_O, skipn_O. cbn [Py.join].
        exists (p0 +:+ Transform.USER_SETTING), "", v1.
        rewrite Hp1, !app_nil_l, !app_assoc. auto.
      * destruct (Transform.find_insert_idx 0 lines) as [|i] eqn:Hi.
        -- rewrite firstn_O, skipn_O. cbn [Py.join].
           exists (p0 +:+ Transform.USER_SETTING), "", v1.
           rewrite Hp1, !app_nil_l, !app_assoc. auto.
        -- rewrite (join_firstn_skipn Py.nl (S i) lines) in Hp1 by lia.
           exists (p0 +:+ Transform.USER_SETTING
                   +:+ Py.join Py.nl (firstn (S i) lines)), Py.nl, v1.
           split; [|split; [now right | right; now rewrite !app_assoc]].
           rewrite <- Hc, <- Hp1. now rewrite !app_assoc.
  - pose proof (join_split Py.nl c nl_not_empty) as Hc.
    destruct (Py.split Py.nl c) as [|l0 rest] eqn:Hlines.
    + cbn [nth]. left. cbn [Py.startswith]. auto.
    + cbn [nth skipn].
      destruct (Py.startswith "#!" l0); [|now left].
      right. destruct rest as [|l1 rest].
      * exists l0, "", "". cbn [Py.join] in *.
        rewrite app_nil_l, app_nil_r. auto.
      * exists l0, Py.nl, "". rewrite join_cons in Hc by discriminate.
        rewrite app_nil_r. auto.
Qed.

End InsertFacts.

Section Retransform.

Let START := Transform.SCRIPT_RUNNER_START.
Let END := Transform.SCRIPT_RUNNER_END.

Lemma start_one_line : Aux.one_line START = true.
Proof. reflexivity. Qed.

Lemma end_one_line : Aux.one_line END = true.
Proof. reflexivity. Qed.

Lemma start_not_empty : START <> "".
Proof. discriminate. Qed.

Lemma end_not_empty : END <> "".
Proof. discriminate. Qed.

Lemma starting_in_app (sub a b w : string) :
  Aux.starting_in sub (a +:+ b) w
  = Aux.starting_in sub a (b +:+ w) + Aux.starting_in sub b w.
Proof.
  induction a as [|ch a IH]; [reflexivity|].
  rewrite app_cons. cbn [Aux.starting_in].
  rewrite IH, <- !app_cons, app_assoc. lia.
Qed.

Lemma starting_in_none (p1 p2 x w1 w2 : string) :
  (forall u, Py.startswith p1 (u +:+ w1) = true ->
             Py.startswith p2 (u +:+ w2) = true) ->
  Aux.starting_in p2 x w2 = 0 -> Aux.starting_in p1 x w1 = 0.
Proof.
  intros Hp. induction x as [|a x IH]; intros H; [reflexivity|].
  cbn [Aux.starting_in] in *.
  destruct (Py.startswith p1 (String a x +:+ w1)) eqn:H1.
  - rewrite (Hp _ H1) in H. discriminate.
  - apply IH. destruct (Py.startswith p2 (String a x +:+ w2)); [discriminate | exact H].
Qed.

(** The block, from its start marker to its end marker line. *)
Lemma runner_block_shape (meta : metadata) :
  Transform.runner_block meta
  = START +:+ (Py.nl +:+ Transform.block_body meta) +:+ Aux.END_LINE +:+ Py.nl.
Proof.
  unfold Transform.runner_block, Aux.END_LINE, START. now rewrite !app_assoc.
Qed.

(** When the end marker occurs once in the block, the first end marker
    line after the start of the block is the one that ends it. *)
Lemma block_end_is_first (meta : metadata) (rest : string) :
  Py.occurrences END (Transform.runner_block meta) = 1 ->
  Aux.starting_in Aux.END_LINE (Py.nl +:+ Transform.block_body meta)
    (Aux.END_LINE +:+ rest) = 0.
Proof.
  intros Hone. unfold Transform.runner_block in Hone.
  replace (Transform.SCRIPT_RUNNER_START +:+ Py.nl +:+ Transform.block_body meta
           +:+ Transform.SCRIPT_RUNNER_END +:+ Py.nl +:+ Py.nl)
    with (Transform.SCRIPT_RUNNER_START
          +:+ (Py.nl +:+ Transform.block_body meta)
          +:+ (Transform.SCRIPT_RUNNER_END +:+ Py.nl +:+ Py.nl)) in Hone
    by now rewrite !app_assoc.
  rewrite <- app_assoc, occurrences_app, starting_in_app in Hone.
  assert (Hself : Py.occurrences END (Transform.SCRIPT_RUNNER_END +:+ Py.nl +:+ Py.nl) = 1)
    by (vm_compute; reflexivity).
  rewrite Hself in Hone.
  apply (starting_in_none Aux.END_LINE END _ _
           (Transform.SCRIPT_RUNNER_END +:+ Py.nl +:+ Py.nl)); [|lia].
  intros u Hu. unfold Aux.END_LINE in Hu.
  rewrite startswith_app in Hu. apply andb_true_iff in Hu as [Hu _].
  rewrite (app_assoc Transform.SCRIPT_RUNNER_END Py.nl rest) in Hu.
  rewrite <- (app_assoc u Transform.SCRIPT_RUNNER_END) in Hu |- *.
  rewrite startswith_line in Hu |- * by apply end_one_line. exact Hu.
Qed.

Lemma occurrences_empty (sub : string) :
  Aux.one_line sub = true -> sub <> "" -> Py.occurrences sub "" = 0.
Proof.
  intros H1 H2. cbn [Py.occurrences]. rewrite startswith_empty by assumption.
  reflexivity.
Qed.

Lemma occurrences_end_line (sub u : string) :
  Aux.one_line sub = true -> sub <> "" ->
  Py.occurrences sub (u +:+ Py.nl) = Py.occurrences sub u.
Proof.
  intros H1 H2. rewrite <- (app_nil_r Py.nl), occurrences_line by assumption.
  rewrite occurrences_empty by assumption. lia.
Qed.

Lemma occurrences_after_line (sub w : string) :
  Aux.one_line sub = true -> sub <> "" ->
  Py.occurrences sub (Py.nl +:+ w) = Py.occurrences sub w.
Proof.
  intros H1 H2. rewrite <- (app_nil_l (Py.nl +:+ w)).
  rewrite occurrences_line, occurrences_empty by assumption. reflexivity.
Qed.

(** A block in front of a text without start marker is replaced by the
    line end that followed its end marker line. *)
Lemma remove_block_front (meta : metadata) (q : string) :
  Py.occurrences END (Transform.runner_block meta) = 1 ->
  Py.occurrences START q = 0 ->
  Transform.remove_runner_block (Transform.runner_block meta +:+ q)
  = Py.nl +:+ q.
Proof.
  intros Hend Hq. rewrite runner_block_shape.
  rewrite (app_assoc START), (app_assoc (Py.nl +:+ Transform.block_body meta)),
    (app_assoc Aux.END_LINE).
  unfold START. rewrite remove_block by now apply block_end_is_first.
  apply remove_none. fold START.
  rewrite <- (app_nil_l (Py.nl +:+ q)).
  rewrite occurrences_line by (apply start_one_line || apply start_not_empty).
  rewrite occurrences_empty by (apply start_one_line || apply start_not_empty).
  exact Hq.
Qed.

Lemma remove_after_line (r w : string) :
  Py.occurrences START r = 0 ->
  Transform.remove_runner_block ((r +:+ Py.nl) +:+ w)
  = (r +:+ Py.nl) +:+ Transform.remove_runner_block w.
Proof.
  intros Hr. apply remove_before. fold START.
  now rewrite starting_in_line by (apply start_one_line || apply start_not_empty).
Qed.

(** Removing the block from a transformed text without other start marker
    leaves the text with a line end where the block was. *)
Lemma remove_inserted (meta : metadata) (c : string) :
  Py.occurrences START c = 0 ->
  Py.occurrences END (Transform.runner_block meta) = 1 ->
  Transform.remove_runner_block
    (Transform.insert_runner_block (Transform.runner_block meta) c)
  = Transform.insert_runner_block Py.nl c.
Proof.
  intros Hc Hend. rewrite !insert_split.
  destruct (insert_place c) as [[Hb Ha] | (r & m & v & Hsplit & _ & Hb)].
  - rewrite Hb, Ha, !app_nil_l. now apply remove_block_front.
  - assert (Hr : Py.occurrences START r = 0).
    { apply (occurrences_part START start_one_line start_not_empty "" r
               (m +:+ Aux.after_block c +:+ v)).
      now rewrite app_nil_l, <- Hsplit. }
    assert (Ha : Py.occurrences START (Aux.after_block c) = 0).
    { apply (occurrences_part START start_one_line start_not_empty (r +:+ m) _ v).
      now rewrite app_assoc, <- Hsplit. }
    destruct Hb as [-> | ->].
    + rewrite remove_after_line by assumption.
      now rewrite remove_block_front.
    + rewrite <- (app_assoc r Py.nl Py.nl).
      rewrite remove_after_line
        by now rewrite occurrences_end_line
             by (apply start_one_line || apply start_not_empty).
      now rewrite remove_block_front.
Qed.

(** The occurrences of a marker in a text into which a block was
    inserted are those of the block, when the text has none. *)
Lemma occurrences_inserted (sub b c : string) :
  Aux.one_line sub = true -> sub <> "" ->
  Py.occurrences sub c = 0 ->
  Py.occurrences sub (Transform.insert_runner_block (b +:+ Py.nl) c)
  = Py.occurrences sub b.
Proof.
  intros H1 H2 Hc. rewrite insert_split.
  destruct (insert_place c) as [[Hb Ha] | (r & m & v & Hsplit & _ & Hb)].
  - rewrite Hb, Ha, app_nil_l, app_assoc, occurrences_line by assumption. lia.
  - assert (Hr : Py.occurrences sub r = 0).
    { apply (occurrences_part sub H1 H2 "" r (m +:+ Aux.after_block c +:+ v)).
      now rewrite app_nil_l, <- Hsplit. }
    assert (Ha : Py.occurrences sub (Aux.after_block c) = 0).
    { apply (occurrences_part sub H1 H2 (r +:+ m) _ v).
      now rewrite app_assoc, <- Hsplit. }
    destruct Hb as [-> | ->].
    + rewrite !app_assoc, !occurrences_line by assumption. lia.
    + rewrite !app_assoc, occurrences_line, occurrences_after_line,
        occurrences_line by assumption. lia.
Qed.

End Retransform.

(** C2 (as stated, refuted): for the one-line script [echo hi] and the
    empty schema the second transformation is not the first one: the
    removal ends with the line end of the end marker, the blank line
    after it stays, and the new block is put in front of it. *)
Lemma transform_twice_differs :
  ~ (forall (meta : metadata) (content : string),
       let once := Transform.transform meta content in
       let twice := Transform.transform meta once in
       twice = once
       /\ Py.occurrences Transform.SCRIPT_RUNNER_START twice = 1
       /\ Py.occurrences Transform.SCRIPT_RUNNER_END twice = 1).
Proof.
  intros H.
  destruct (H no_meta ("echo hi" +:+ Py.nl)) as [Heq _].
  vm_compute in Heq. discriminate Heq.
Qed.

Example transform_twice_differs_texts :
  Transform.transform no_meta ("echo hi" +:+ Py.nl)
  = "# <SCRIPT-RUNNER>" +:+ Py.nl +:+ "# </SCRIPT-RUNNER>" +:+ Py.nl
    +:+ Py.nl +:+ "echo hi" +:+ Py.nl
  /\ Transform.transform no_meta (Transform.transform no_meta ("echo hi" +:+ Py.nl))
  = "# <SCRIPT-RUNNER>" +:+ Py.nl +:+ "# </SCRIPT-RUNNER>" +:+ Py.nl
    +:+ Py.nl +:+ Py.nl +:+ "echo hi" +:+ Py.nl.
Proof. split; vm_compute; reflexivity. Qed.

(** A start marker without end marker line is not removed, and the
    transformed text then has two start markers. *)
Example stray_start_marker_stays :
  let script := "# <SCRIPT-RUNNER>" +:+ Py.nl +:+ "echo hi" +:+ Py.nl in
  Py.occurrences Transform.SCRIPT_RUNNER_START
    (Transform.transform no_meta (Transform.transform no_meta script)) = 2.
Proof. vm_compute. reflexivity. Qed.

(** An end marker that belongs to no block is not removed either, and
    the transformed text then has two end markers. *)
Example stray_end_marker_stays :
  let script := "# </SCRIPT-RUNNER>" +:+ Py.nl +:+ "echo hi" +:+ Py.nl in
  Py.occurrences Transform.SCRIPT_RUNNER_END
    (Transform.transform no_meta (Transform.transform no_meta script)) = 2.
Proof. vm_compute. reflexivity. Qed.

(** A marker in a declared default is counted too: the block of such a
    schema holds the start marker twice. *)
Example marker_in_default_counts :
  Py.occurrences Transform.SCRIPT_RUNNER_START
    (Transform.transform
       {| description := None;
          args := [ {| arg_name := "file"; arg_description := None;
                       arg_optional := None;
                       arg_default := Some "# <SCRIPT-RUNNER>" |} ];
          options := [] |}
       ("echo hi" +:+ Py.nl)) = 2.
Proof. vm_compute. reflexivity. Qed.

(** After a line [#!], each further transformation leaves two more line
    ends behind the block. *)
Example retransform_after_shebang_texts :
  let script := "#!/bin/bash" +:+ Py.nl +:+ "echo hi" +:+ Py.nl in
  Transform.transform no_meta script
  = "#!/bin/bash" +:+ Py.nl +:+ Py.nl
    +:+ "# <SCRIPT-RUNNER>" +:+ Py.nl +:+ "# </SCRIPT-RUNNER>" +:+ Py.nl +:+ Py.nl
    +:+ "echo hi" +:+ Py.nl
  /\ Transform.transform no_meta (Transform.transform no_meta script)
     = "#!/bin/bash" +:+ Py.nl +:+ Py.nl
       +:+ "# <SCRIPT-RUNNER>" +:+ Py.nl +:+ "# </SCRIPT-RUNNER>" +:+ Py.nl +:+ Py.nl
       +:+ Py.nl +:+ Py.nl +:+ "echo hi" +:+ Py.nl.
Proof. split; vm_compute; reflexivity. Qed.

(** C2 (amended): let the removal of the closed blocks leave a text
    without start marker and without end marker (a script that holds no
    marker, or only closed blocks, as a transformed script does), and let
    the block of the schema hold each marker once.  Then the transformed
    script and the twice-transformed script each hold one start marker and
    one end marker.  They are not the same text: the second removal takes
    the block up to the line end of its end marker only, so the second
    result is what the insertion gives on the cleaned text into which a
    lone line end was inserted by the same rule. *)
Theorem retransform_keeps_one_block (meta : metadata) (content : string) :
  let block := Transform.runner_block meta in
  let cleaned := Transform.remove_runner_block content in
  let once := Transform.transform meta content in
  let twice := Transform.transform meta once in
  Py.occurrences Transform.SCRIPT_RUNNER_START cleaned = 0 ->
  Py.occurrences Transform.SCRIPT_RUNNER_END cleaned = 0 ->
  Py.occurrences Transform.SCRIPT_RUNNER_START block = 1 ->
  Py.occurrences Transform.SCRIPT_RUNNER_END block = 1 ->
  once = Transform.insert_runner_block block cleaned
  /\ twice = Transform.insert_runner_block block
               (Transform.insert_runner_block Py.nl cleaned)
  /\ Py.occurrences Transform.SCRIPT_RUNNER_START once = 1
  /\ Py.occurrences Transform.SCRIPT_RUNNER_END once = 1
  /\ Py.occurrences Transform.SCRIPT_RUNNER_START twice = 1
  /\ Py.occurrences Transform.SCRIPT_RUNNER_END twice = 1.
Proof.
  cbv zeta. intros Hs He Hbs Hbe.
  set (cleaned := Transform.remove_runner_block content) in *.
  assert (Honce : Transform.transform meta content
                  = Transform.insert_runner_block (Transform.runner_block meta) cleaned)
    by reflexivity.
  assert (Htwice : Transform.transform meta (Transform.transform meta content)
                   = Transform.insert_runner_block (Transform.runner_block meta)
                       (Transform.insert_runner_block Py.nl cleaned)).
  { rewrite Honce. unfold Transform.transform at 1.
    now rewrite remove_inserted. }
  split; [exact Honce | split; [exact Htwice|]].
  rewrite Htwice, Honce.
  assert (Hshape : Transform.runner_block meta
                   = (Transform.SCRIPT_RUNNER_START +:+ Py.nl
                      +:+ Transform.block_body meta
                      +:+ Transform.SCRIPT_RUNNER_END +:+ Py.nl) +:+ Py.nl).
  { unfold Transform.runner_block. now rewrite !app_assoc. }
  rewrite Hshape in Hbs, Hbe |- *.
  rewrite occurrences_end_line in Hbs
    by (apply start_one_line || apply start_not_empty).
  rewrite occurrences_end_line in Hbe
    by (apply end_one_line || apply end_not_empty).
  assert (Hnl : forall sub, Aux.one_line sub = true -> sub <> "" ->
                  Py.occurrences sub cleaned = 0 ->
                  Py.occurrences sub (Transform.insert_runner_block Py.nl cleaned) = 0).
  { intros sub H1 H2 H0. rewrite <- (app_nil_l Py.nl).
    rewrite occurrences_inserted by assumption.
    now apply occurrences_empty. }
  split; [|split; [|split]].
  - rewrite occurrences_inserted
      by (apply start_one_line || apply start_not_empty || exact Hs).
    exact Hbs.
  - rewrite occurrences_inserted
      by (apply end_one_line || apply end_not_empty || exact He).
    exact Hbe.
  - rewrite occurrences_inserted
      by (apply start_one_line || apply start_not_empty
          || (apply Hnl; [apply start_one_line | apply start_not_empty | exact Hs])).
    exact Hbs.
  - rewrite occurrences_inserted
      by (apply end_one_line || apply end_not_empty
          || (apply Hnl; [apply end_one_line | apply end_not_empty | exact He])).
    exact Hbe.
Qed.

Lemma retransform_keeps_one_block_witness :
  let script := "#!/bin/bash" +:+ Py.nl +:+ Py.nl
                +:+ "# <SCRIPT-RUNNER>" +:+ Py.nl +:+ "OLD=${1:-}" +:+ Py.nl
                +:+ "# </SCRIPT-RUNNER>" +:+ Py.nl +:+ Py.nl
                +:+ "echo hi" +:+ Py.nl in
  let twice := Transform.transform sample_meta (Transform.transform sample_meta script) in
  Transform.remove_runner_block script
  = "#!/bin/bash" +:+ Py.nl +:+ Py.nl +:+ Py.nl +:+ "echo hi" +:+ Py.nl
  /\ Py.occurrences Transform.SCRIPT_RUNNER_START twice = 1
  /\ Py.occurrences Transform.SCRIPT_RUNNER_END twice = 1.
Proof.
  cbv zeta. split; [vm_compute; reflexivity|].
  refine (proj2 (proj2 (proj2 (proj2 (retransform_keeps_one_block sample_meta
            ("#!/bin/bash" +:+ Py.nl +:+ Py.nl
             +:+ "# <SCRIPT-RUNNER>" +:+ Py.nl +:+ "OLD=${1:-}" +:+ Py.nl
             +:+ "# </SCRIPT-RUNNER>" +:+ Py.nl +:+ Py.nl
             +:+ "echo hi" +:+ Py.nl) _ _ _ _)))));
    vm_compute; reflexivity.
Defined.

(** * Further properties of the command adapter *)

(** X1: the CLI name of an option is never one of the reserved names, and
    the shortcut handed to the framework is never a reserved shortcut. *)
Theorem built_option_not_reserved (opt : opt_info) :
  (o_name (fst (Command.build_option opt)) ∉ CLEO_RESERVED_OPTIONS)
  /\ forall s, o_short (fst (Command.build_option opt)) = Some s ->
               s ∉ CLEO_RESERVED_SHORTCUTS.
Proof.
  assert (Hname : o_name (fst (Command.build_option opt))
                  = Command.effective_name (opt_name opt)).
  { unfold Command.build_option. simpl. destruct (get (opt_flag opt) false); reflexivity. }
  assert (Hshort : o_short (fst (Command.build_option opt))
                   = if Command.shortcut_conflicts (opt_short opt)
                     then None else opt_short opt).
  { unfold Command.build_option. simpl. destruct (get (opt_flag opt) false); reflexivity. }
  rewrite Hname, Hshort. split.
  - unfold Command.effective_name.
    destruct (bool_decide (opt_name opt ∈ CLEO_RESERVED_OPTIONS)) eqn:Hin.
    + apply bool_decide_eq_true in Hin. unfold CLEO_RESERVED_OPTIONS in Hin.
      set_unfold in Hin.
      apply (bool_decide_eq_false_1 (_ ∈ CLEO_RESERVED_OPTIONS)).
      destruct_or!; rewrite Hin; vm_compute; reflexivity.
    + now apply bool_decide_eq_false in Hin.
  - intros s Hs. unfold Command.shortcut_conflicts in Hs.
    destruct (opt_short opt) as [t|]; [|discriminate].
    destruct (String.eqb_spec t "") as [->|Hne]; simpl in Hs.
    + injection Hs as <-.
      apply (bool_decide_eq_false_1 (_ ∈ CLEO_RESERVED_SHORTCUTS)).
      vm_compute. reflexivity.
    + destruct (bool_decide (t ∈ CLEO_RESERVED_SHORTCUTS)) eqn:Hin; [discriminate|].
      injection Hs as <-. now apply bool_decide_eq_false in Hin.
Qed.

Lemma printed_length (opt : opt_info) :
  length (snd (Command.build_option opt))
  = if Command.shortcut_conflicts (opt_short opt) then 2 else 0.
Proof.
  unfold Command.build_option. cbn [snd].
  now destruct (Command.shortcut_conflicts (opt_short opt)).
Qed.

Lemma options_loop_accepts {T E : Type} (option_ : cleo_option -> T + E)
    (l : list opt_info) (os acc : list T) :
  Forall2 (fun opt o => option_ (fst (Command.build_option opt)) = inl o) l os ->
  Command.options_loop option_ l acc
  = (concat (map (fun opt => snd (Command.build_option opt)) l),
     inl (acc ++ os)).
Proof.
  intros H. revert acc. induction H as [|opt o l os Ho _ IH]; intros acc.
  - cbn [Command.options_loop map concat]. now rewrite List.app_nil_r.
  - cbn [Command.options_loop map concat].
    destruct (Command.build_option opt) as [call printed].
    cbn [fst snd] in *. rewrite Ho, IH. now rewrite <- List.app_assoc.
Qed.

Lemma options_loop_raises {T E : Type} (option_ : cleo_option -> T + E)
    (accepted rest : list opt_info) (bad : opt_info) (os acc : list T) (e : E) :
  Forall2 (fun opt o => option_ (fst (Command.build_option opt)) = inl o)
    accepted os ->
  option_ (fst (Command.build_option bad)) = inr e ->
  Command.options_loop option_ (accepted ++ bad :: rest) acc
  = (concat (map (fun opt => snd (Command.build_option opt)) (accepted ++ [bad])),
     inr e).
Proof.
  intros H Hbad. revert acc. induction H as [|opt o l os Ho _ IH]; intros acc.
  - cbn [app Command.options_loop map concat].
    destruct (Command.build_option bad) as [call printed].
    cbn [fst snd] in *. now rewrite Hbad, List.app_nil_r.
  - cbn [app Command.options_loop map concat].
    destruct (Command.build_option opt) as [call printed].
    cbn [fst snd] in *. now rewrite Ho, IH.
Qed.

(** X2: when cleo's helper accepts the call of every turn, the property
    [options] gives the options the helper built, one per declared option
    and in the order of the declarations, and prints two lines for each
    declared shortcut that is reserved and nothing else. *)
Theorem cli_options_in_order {T E : Type} (option_ : cleo_option -> T + E)
    (meta : metadata) (os : list T) :
  Forall2 (fun opt o => option_ (fst (Command.build_option opt)) = inl o)
    (options meta) os ->
  Command.cli_options option_ meta
  = (concat (map (fun opt => snd (Command.build_option opt)) (options meta)),
     inl os)
  /\ length os = length (options meta)
  /\ length (fst (Command.cli_options option_ meta))
     = 2 * length (List.filter
                     (fun opt => Command.shortcut_conflicts (opt_short opt))
                     (options meta)).
Proof.
  intros H. unfold Command.cli_options.
  rewrite (options_loop_accepts option_ _ os []) by exact H.
  split; [reflexivity|]. split.
  - symmetry. exact (Forall2_length _ _ _ H).
  - cbn [fst]. clear H. induction (options meta) as [|opt l IH]; [reflexivity|].
    cbn [map concat List.filter]. rewrite List.length_app, IH, printed_length.
    destruct (Command.shortcut_conflicts (opt_short opt)); cbn [length]; lia.
Qed.

Lemma cli_options_in_order_witness :
  Command.cli_options
    (fun call => if String.eqb (o_name call) ""
                 then inr "An option name cannot be empty" else inl call)
    sample_meta
  = ([], inl [ {| o_name := "debug"; o_short := Some "d";
                  o_description := "Debug"; o_flag := true;
                  o_value_required := true; o_default := None |} ]).
Proof.
  apply (cli_options_in_order
           (fun call => if String.eqb (o_name call) ""
                        then inr "An option name cannot be empty" else inl call)
           sample_meta).
  repeat constructor.
Defined.

(** X29: when cleo's helper raises on the call for a declared option,
    having accepted the calls before it, the property [options] raises
    that error and gives no list; what was printed up to that turn, its
    own warning included, stays printed. *)
Theorem cli_options_raises {T E : Type} (option_ : cleo_option -> T + E)
    (meta : metadata) (accepted rest : list opt_info) (bad : opt_info)
    (os : list T) (e : E) :
  options meta = accepted ++ bad :: rest ->
  Forall2 (fun opt o => option_ (fst (Command.build_option opt)) = inl o)
    accepted os ->
  option_ (fst (Command.build_option bad)) = inr e ->
  Command.cli_options option_ meta
  = (concat (map (fun opt => snd (Command.build_option opt)) (accepted ++ [bad])),
     inr e).
Proof.
  intros Hl H Hbad. unfold Command.cli_options. rewrite Hl.
  now apply (options_loop_raises option_ accepted rest bad os).
Qed.

Lemma cli_options_raises_witness :
  Command.cli_options
    (fun call => if String.eqb (o_name call) ""
                 then inr "An option name cannot be empty" else inl call)
    {| description := None; args := [];
       options := [ {| opt_name := "debug"; opt_description := Some "Debug";
                       opt_short := Some "d"; opt_flag := Some true;
                       opt_default := None |};
                    {| opt_name := ""; opt_description := Some "desc";
                       opt_short := Some "v"; opt_flag := Some false;
                       opt_default := None |};
                    {| opt_name := "out"; opt_description := Some "Out";
                       opt_short := None; opt_flag := Some false;
                       opt_default := None |} ] |}
  = ([ "Warning: Shortcut '-v' for option '' conflicts with CLI reserved shortcuts.";
       "Use -- instead, or choose a different shortcut in your script." ],
     inr "An option name cannot be empty").
Proof.
  apply (cli_options_raises
           (fun call => if String.eqb (o_name call) ""
                        then inr "An option name cannot be empty" else inl call)
           _ [ {| opt_name := "debug"; opt_description := Some "Debug";
                  opt_short := Some "d"; opt_flag := Some true;
                  opt_default := None |} ]
           [ {| opt_name := "out"; opt_description := Some "Out";
                opt_short := None; opt_flag := Some false;
                opt_default := None |} ]
           {| opt_name := ""; opt_description := Some "desc";
              opt_short := Some "v"; opt_flag := Some false;
              opt_default := None |}
           [ {| o_name := "debug"; o_short := Some "d";
                o_description := "Debug"; o_flag := true;
                o_value_required := true; o_default := None |} ]).
  - reflexivity.
  - repeat constructor.
  - reflexivity.
Defined.

Lemma find_last {A : Type} (P : A -> bool) (l : list A) (x : A) :
  find P (l ++ [x])
  = match find P l with
    | Some y => Some y
    | None => if P x then Some x else None
    end.
Proof.
  induction l as [|y l IH]; cbn [app find]; [reflexivity|].
  now destruct (P y).
Qed.

(** X3: the environment of the child, variable by variable: a variable
    named [CLI_<NAME>] after an option that came with a true value holds
    [1] for a flag and the text of the value otherwise, the last such
    option in the order of the declarations deciding; every other variable
    is as in the environment of the caller. *)
Theorem env_lookup (meta : metadata) (option_value : string -> pyval)
    (environ : gmap string string) (k : string) :
  Command.env meta option_value environ !! k
  = match find (fun opt => supplied option_value opt && String.eqb (env_key opt) k)
                (rev (options meta)) with
    | Some opt => Some (env_value option_value opt)
    | None => environ !! k
    end.
Proof.
  unfold Command.env. revert environ.
  induction (options meta) as [|opt l IH]; intros environ; [reflexivity|].
  cbn [fold_left rev]. rewrite IH, find_last. cbv zeta.
  destruct (find _ (rev l)) as [o|]; [reflexivity|].
  unfold supplied, env_value, env_key.
  destruct (truthy (option_value (Command.effective_name (opt_name opt))));
    cbn [andb]; [|reflexivity].
  destruct (String.eqb_spec ("CLI_" +:+ Transform.var_name (opt_name opt)) k)
    as [->|Hne].
  - destruct (get (opt_flag opt) false); now rewrite lookup_insert_eq.
  - destruct (get (opt_flag opt) false); now rewrite lookup_insert_ne.
Qed.

(** ** The run of [handle] on the files *)

Section HandleRun.

Variable script_path : string.
Variable script_meta : metadata.
Variable argument : string -> pyval.
Variable option_value : string -> pyval.
Variable environ : gmap string string.
Variable mkstemp_name : gmap string Command.file -> string.
Variable subprocess_run :
  list string -> gmap string string -> Command.M Z.

Lemma cleanup_deletes (p : string) (w : gmap string Command.file) :
  Command.bind (Command.exists_ p)
    (fun e => if e then Command.unlink p else Command.ret tt) w
  = (delete p w, Command.Ok tt).
Proof.
  unfold Command.bind, Command.exists_, Command.unlink, Command.ret.
  destruct (w !! p) as [g|] eqn:Hp.
  - rewrite bool_decide_eq_true_2 by eauto. cbv beta iota. now rewrite Hp.
  - rewrite bool_decide_eq_false_2 by (intros [? ?]; discriminate).
    now rewrite delete_id.
Qed.

(** X4: when the script cannot be read, [handle] raises the error of the
    read, leaves the files as they are and does not start the child,
    whatever the child would do. *)
Theorem handle_missing_script (w : gmap string Command.file) :
  w !! script_path = None ->
  Command.handle script_path script_meta argument option_value environ
    mkstemp_name subprocess_run w
  = (w, Command.Raise (Command.FileNotFoundError script_path)).
Proof.
  intros Hf.
  unfold Command.handle, Command._create_temp_script.
  unfold Command.bind at 1. unfold Command.bind at 1.
  unfold Command.read_text. now rewrite Hf.
Qed.

(** X5: when the script can be read, the child is started once, on the
    files with the transformed script under the temporary name, with
    [bash], that name and the positional arguments; what [handle] gives
    back is what the child gave back, an exit code or an error alike, and
    the files are those the child left, less the temporary file. *)
Theorem handle_runs_child_then_cleans (w w2 : gmap string Command.file)
    (f : Command.file) (r : Command.result Z) :
  w !! script_path = Some f ->
  subprocess_run
    ("bash" :: mkstemp_name w :: Command.script_args script_meta argument)
    (Command.env script_meta option_value environ)
    (Command.materialized script_meta mkstemp_name w f) = (w2, r) ->
  Command.handle script_path script_meta argument option_value environ
    mkstemp_name subprocess_run w
  = (delete (mkstemp_name w) w2, r).
Proof.
  intros Hf Hrun.
  unfold Command.handle. unfold Command.bind at 1.
  rewrite (create_temp_script_ok script_path script_meta mkstemp_name w f Hf).
  unfold Command.try_finally. rewrite Hrun.
  now rewrite cleanup_deletes.
Qed.

(** X6: when the temporary name is fresh and the child leaves the files
    alone, [handle] leaves the files exactly as it found them: the script
    itself is never written to. *)
Theorem handle_restores_files (w : gmap string Command.file)
    (f : Command.file) (r : Command.result Z) :
  w !! script_path = Some f ->
  w !! mkstemp_name w = None ->
  subprocess_run
    ("bash" :: mkstemp_name w :: Command.script_args script_meta argument)
    (Command.env script_meta option_value environ)
    (Command.materialized script_meta mkstemp_name w f)
  = (Command.materialized script_meta mkstemp_name w f, r) ->
  Command.handle script_path script_meta argument option_value environ
    mkstemp_name subprocess_run w
  = (w, r).
Proof.
  intros Hf Hfresh Hrun.
  unfold Command.handle. unfold Command.bind at 1.
  rewrite (create_temp_script_ok script_path script_meta mkstemp_name w f Hf).
  unfold Command.try_finally. rewrite Hrun, cleanup_deletes.
  unfold Command.materialized. now rewrite delete_insert_id.
Qed.

End HandleRun.

Lemma handle_missing_script_witness :
  Command.handle "scripts/none.sh" no_meta (fun _ => PyNone) (fun _ => PyNone) ∅
    (fun _ => "/tmp/script_runner_1.sh")
    (fun _ _ w => (w, Command.Ok 0%Z))
    hello_files
  = (hello_files, Command.Raise (Command.FileNotFoundError "scripts/none.sh")).
Proof.
  apply (handle_missing_script "scripts/none.sh" no_meta
           (fun _ => PyNone) (fun _ => PyNone) ∅
           (fun _ => "/tmp/script_runner_1.sh")
           (fun _ _ w => (w, Command.Ok 0%Z)) hello_files).
  vm_compute. reflexivity.
Defined.

Lemma handle_runs_child_then_cleans_witness :
  Command.handle "scripts/hello.sh" sample_meta
    (fun _ => PyStr "a.txt") (fun _ => PyBool true) ∅
    (fun _ => "/tmp/script_runner_1.sh")
    (fun _ _ w => (delete "scripts/hello.sh" w, Command.Raise (Command.OSError "killed")))
    hello_files
  = (delete "/tmp/script_runner_1.sh"
       (delete "scripts/hello.sh"
          (Command.materialized sample_meta (fun _ => "/tmp/script_runner_1.sh")
             hello_files hello_script)),
     Command.Raise (Command.OSError "killed")).
Proof.
  apply (handle_runs_child_then_cleans "scripts/hello.sh" sample_meta
           (fun _ => PyStr "a.txt") (fun _ => PyBool true) ∅
           (fun _ => "/tmp/script_runner_1.sh")
           (fun _ _ w => (delete "scripts/hello.sh" w,
                          Command.Raise (Command.OSError "killed")))
           hello_files _ hello_script).
  - apply lookup_singleton_eq.
  - reflexivity.
Defined.

Lemma handle_restores_files_witness :
  Command.handle "scripts/hello.sh" sample_meta
    (fun _ => PyStr "a.txt") (fun _ => PyBool true) ∅
    (fun _ => "/tmp/script_runner_1.sh")
    (fun _ _ w => (w, Command.Ok 2%Z))
    hello_files
  = (hello_files, Command.Ok 2%Z).
Proof.
  apply (handle_restores_files "scripts/hello.sh" sample_meta
           (fun _ => PyStr "a.txt") (fun _ => PyBool true) ∅
           (fun _ => "/tmp/script_runner_1.sh")
           (fun _ _ w => (w, Command.Ok 2%Z))
           hello_files hello_script).
  - apply lookup_singleton_eq.
  - vm_compute. reflexivity.
  - reflexivity.
Defined.

(** * Further properties of the script transformer *)

(** ** The removal of earlier blocks *)

(** X7: the text before the first start marker stays; the first block,
    from that marker to the first end-marker line after it, is deleted,
    and the removal goes on in the text after that line. *)
Theorem remove_first_block (x y rest : string) :
  Aux.starting_in Transform.SCRIPT_RUNNER_START x
    (Transform.SCRIPT_RUNNER_START +:+ y +:+ Aux.END_LINE +:+ rest) = 0 ->
  Aux.starting_in Aux.END_LINE y (Aux.END_LINE +:+ rest) = 0 ->
  Transform.remove_runner_block
    (x +:+ Transform.SCRIPT_RUNNER_START +:+ y +:+ Aux.END_LINE +:+ rest)
  = x +:+ Transform.remove_runner_block rest.
Proof.
  intros Hx Hy. rewrite remove_before by assumption.
  now rewrite remove_block.
Qed.

Lemma remove_first_block_witness :
  Transform.remove_runner_block
    (("#!/bin/bash" +:+ Py.nl)
     +:+ Transform.SCRIPT_RUNNER_START +:+ (Py.nl +:+ "A=${1:-}" +:+ Py.nl)
     +:+ Aux.END_LINE +:+ "echo hi" +:+ Py.nl)
  = ("#!/bin/bash" +:+ Py.nl)
    +:+ Transform.remove_runner_block ("echo hi" +:+ Py.nl).
Proof.
  apply (remove_first_block ("#!/bin/bash" +:+ Py.nl)
           (Py.nl +:+ "A=${1:-}" +:+ Py.nl) ("echo hi" +:+ Py.nl));
    vm_compute; reflexivity.
Defined.

Lemma find_end_none (s : string) :
  Py.contains Aux.END_LINE s = false -> Aux.find_end s = None.
Proof.
  induction s as [|a s IH]; intros H.
  - reflexivity.
  - cbn [Py.contains] in H. apply orb_false_iff in H as [H1 H2].
    cbn [Aux.find_end]. rewrite H1. now apply IH.
Qed.

Lemma contains_drop (sub s : string) (n : nat) :
  Py.contains sub s = false -> Py.contains sub (Py.drop n s) = false.
Proof.
  revert s. induction n as [|n IH]; intros s H; [exact H|].
  destruct s as [|a s]; [exact H|].
  cbn [Py.drop]. apply IH. cbn [Py.contains] in H.
  now apply orb_false_iff in H as [_ H].
Qed.

(** X8: a text in which no end-marker line occurs is left as it is by the
    removal, also when it holds a start marker: a block that is not
    closed is not deleted. *)
Theorem remove_keeps_unclosed_block (s : string) :
  Py.contains Aux.END_LINE s = false ->
  Transform.remove_runner_block s = s.
Proof.
  induction s as [|a s IH]; intros H; [reflexivity|].
  assert (Hm : Re.rmatch Transform.runner_pattern (String a s) = None).
  { rewrite rmatch_runner_pattern.
    destruct (Py.startswith _ _); [|reflexivity].
    now rewrite find_end_none by now apply contains_drop. }
  unfold Transform.remove_runner_block, Re.sub_empty in *.
  cbn [Re.sub_go]. rewrite Hm. f_equal. apply IH.
  cbn [Py.contains] in H. now apply orb_false_iff in H as [_ H].
Qed.

Lemma remove_keeps_unclosed_block_witness :
  Transform.remove_runner_block
    ("# <SCRIPT-RUNNER>" +:+ Py.nl +:+ "A=1" +:+ Py.nl +:+ "# </SCRIPT-RUNNER>")
  = "# <SCRIPT-RUNNER>" +:+ Py.nl +:+ "A=1" +:+ Py.nl +:+ "# </SCRIPT-RUNNER>".
Proof.
  apply (remove_keeps_unclosed_block
           ("# <SCRIPT-RUNNER>" +:+ Py.nl +:+ "A=1" +:+ Py.nl +:+ "# </SCRIPT-RUNNER>")).
  vm_compute. reflexivity.
Defined.

(** ** Splitting a text at a separator *)

Section SplitMore.

Lemma split_go_skip (sep : string) (k : nat) (s : string) :
  Py.split_go sep k s = Py.split_go sep 0 (Py.drop k s).
Proof.
  revert k. induction s as [|a s IH]; intros [|k]; try reflexivity.
  cbn [Py.split_go Py.drop]. apply IH.
Qed.

Lemma split_none (sep s : string) :
  Py.contains sep s = false -> Py.split sep s = [s].
Proof.
  unfold Py.split. induction s as [|a s IH]; intros H; [reflexivity|].
  cbn [Py.contains] in H. apply orb_false_iff in H as [H1 H2].
  cbn [Py.split_go]. rewrite H1, IH by assumption. reflexivity.
Qed.

Lemma split_here (sep w : string) :
  sep <> "" -> Py.split sep (sep +:+ w) = "" :: Py.split sep w.
Proof.
  intros Hsep. unfold Py.split. destruct sep as [|a sep]; [contradiction|].
  rewrite app_cons. cbn [Py.split_go]. rewrite <- app_cons, startswith_self.
  f_equal. rewrite split_go_skip. cbn [String.length].
  simpl Nat.sub. rewrite Nat.sub_0_r. now rewrite drop_app.
Qed.




Lemma contains_split_twice (sep s : string) :
  sep <> "" -> Py.contains sep s = true -> 2 <= length (Py.split sep s).
Proof.
  intros Hsep. unfold Py.split. induction s as [|a s IH]; intros H.
  - destruct sep; [contradiction|discriminate H].
  - cbn [Py.contains] in H. cbn [Py.split_go].
    destruct (Py.startswith sep (String a s)) eqn:Hs.
    + pose proof (split_go_not_nil sep (String.length sep - 1) s) as Hne.
      destruct (Py.split_go sep (String.length sep - 1) s); [contradiction|].
      cbn [length]. lia.
    + cbn [orb] in H. specialize (IH H).
      destruct (Py.split_go sep 0 s); [cbn [length] in IH; lia|exact IH].
Qed.

Lemma one_line_contains (l : string) :
  Aux.one_line l = true -> Py.contains Py.nl l = false.
Proof.
  induction l as [|a l IH]; intros H; [reflexivity|].
  cbn [Aux.one_line] in H. apply andb_true_iff in H as [Ha Hl].
  cbn [Py.contains]. rewrite (IH Hl), orb_false_r.
  unfold Py.nl. cbn [Py.startswith].
  rewrite Ascii.eqb_sym. now apply negb_true_iff in Ha as ->.
Qed.

(** The lines of two texts joined by a line end. *)
Lemma split_lines_app (s1 s2 : string) :
  Py.split Py.nl (s1 +:+ Py.nl +:+ s2) = Py.split Py.nl s1 ++ Py.split Py.nl s2.
Proof.
  induction s1 as [|a s1 IH].
  - rewrite app_nil_l, split_here by apply nl_not_empty. reflexivity.
  - rewrite app_cons. unfold Py.split in *. cbn [Py.split_go].
    replace (Py.startswith Py.nl (String a (s1 +:+ Py.nl +:+ s2)))
      with (Py.startswith Py.nl (String a s1)) by reflexivity.
    destruct (Py.startswith Py.nl (String a s1)).
    + cbn [String.length Py.nl]. simpl Nat.sub. now rewrite IH.
    + rewrite IH.
      pose proof (split_go_not_nil Py.nl 0 s1) as Hne.
      destruct (Py.split_go Py.nl 0 s1); [contradiction|reflexivity].
Qed.

Lemma startswith_first_line (p c : string) :
  Aux.one_line p = true ->
  Py.startswith p (nth 0 (Py.split Py.nl c) "") = Py.startswith p c.
Proof.
  unfold Py.split. revert p. induction c as [|a c IH]; intros p Hp; [reflexivity|].
  cbn [Py.split_go].
  destruct (Py.startswith Py.nl (String a c)) eqn:Hnl.
  - cbn [nth]. destruct p as [|b p]; [reflexivity|].
    cbn [Aux.one_line] in Hp. apply andb_true_iff in Hp as [Hb _].
    cbn [Py.startswith]. unfold Py.nl in Hnl. cbn [Py.startswith] in Hnl.
    destruct (Ascii.eqb (ascii_of_nat 10) a) eqn:Ha; [|discriminate].
    apply Ascii.eqb_eq in Ha. subst a.
    now apply negb_true_iff in Hb as ->.
  - pose proof (split_go_not_nil Py.nl 0 c) as Hne. specialize (IH).
    destruct (Py.split_go Py.nl 0 c) as [|piece pieces]; [contradiction|].
    cbn [nth] in *. destruct p as [|b p]; [reflexivity|].
    cbn [Aux.one_line] in Hp. apply andb_true_iff in Hp as [_ Hp].
    cbn [Py.startswith]. destruct (Ascii.eqb b a); [|reflexivity].
    now apply IH.
Qed.

End SplitMore.

(** ** The place of the runner block *)

Section InsertMore.




(** X9: in a text without the user-setting marker that does not begin
    with [#!], the block is put in front and the text follows as it is. *)
Theorem insert_without_shebang (b c : string) :
  Py.contains Transform.USER_SETTING c = false ->
  Py.startswith "#!" c = false ->
  Transform.insert_runner_block b c = b +:+ c.
Proof.
  intros Hu Hs. unfold Transform.insert_runner_block.
  rewrite Hu, startswith_first_line by reflexivity. now rewrite Hs.
Qed.

(** X10: in a text without the user-setting marker whose first line
    begins with [#!], the block is put after that line and one empty
    line, and the rest of the text follows as it is. *)
Theorem insert_after_shebang (b l rest : string) :
  Py.contains Transform.USER_SETTING (l +:+ Py.nl +:+ rest) = false ->
  Aux.one_line l = true ->
  Py.startswith "#!" l = true ->
  Transform.insert_runner_block b (l +:+ Py.nl +:+ rest)
  = l +:+ Py.nl +:+ Py.nl +:+ b +:+ rest.
Proof.
  intros Hu Hl Hs. unfold Transform.insert_runner_block.
  rewrite Hu, split_lines_app, (split_none Py.nl l)
    by now apply one_line_contains.
  cbn [app nth skipn]. rewrite Hs, skipn_O.
  now rewrite (join_split Py.nl rest) by apply nl_not_empty.
Qed.

(** X11: a text that holds the user-setting marker splits at it into two
    pieces at least, so the branch that appends the block to the end of
    the text is never taken: the block goes after the first marker. *)
Theorem marker_branch_never_appends (b c : string) :
  Py.contains Transform.USER_SETTING c = true ->
  2 <= length (Py.split Transform.USER_SETTING c)
  /\ Transform.insert_runner_block b c
     = let parts := Py.split Transform.USER_SETTING c in
       let lines := Py.split Py.nl (nth 1 parts "") in
       let insert_idx := Transform.find_insert_idx 0 lines in
       nth 0 parts "" +:+ Transform.USER_SETTING
       +:+ Py.join Py.nl (firstn insert_idx lines)
       +:+ Py.nl +:+ Py.nl +:+ b +:+ Py.join Py.nl (skipn insert_idx lines).
Proof.
  intros Hu.
  pose proof (contains_split_twice _ c user_setting_not_empty Hu) as Hlen.
  split; [exact Hlen|].
  unfold Transform.insert_runner_block. rewrite Hu.
  apply Nat.leb_le in Hlen. now rewrite Hlen.
Qed.



End InsertMore.

Lemma insert_without_shebang_witness :
  Transform.insert_runner_block (Transform.runner_block sample_meta)
    ("echo hi" +:+ Py.nl)
  = Transform.runner_block sample_meta +:+ "echo hi" +:+ Py.nl.
Proof.
  apply (insert_without_shebang (Transform.runner_block sample_meta)
           ("echo hi" +:+ Py.nl)); vm_compute; reflexivity.
Defined.

Lemma insert_after_shebang_witness :
  Transform.insert_runner_block (Transform.runner_block sample_meta)
    ("#!/bin/bash" +:+ Py.nl +:+ "echo hi" +:+ Py.nl)
  = "#!/bin/bash" +:+ Py.nl +:+ Py.nl +:+ Transform.runner_block sample_meta
    +:+ "echo hi" +:+ Py.nl.
Proof.
  apply (insert_after_shebang (Transform.runner_block sample_meta)
           "#!/bin/bash" ("echo hi" +:+ Py.nl)); vm_compute; reflexivity.
Defined.

Lemma marker_branch_never_appends_witness :
  2 <= length (Py.split Transform.USER_SETTING ("A=1 # USER SETTING")).
Proof.
  apply (marker_branch_never_appends "" ("A=1 # USER SETTING")).
  vm_compute. reflexivity.
Defined.



(** ** Arguments: from the command line to the variables of the script *)

Lemma arg_lines_app (i : nat) (l1 l2 : list arg_info) :
  Transform.arg_lines i (l1 ++ l2)
  = Transform.arg_lines i l1 +:+ Transform.arg_lines (i + length l1) l2.
Proof.
  revert i. induction l1 as [|a l1 IH]; intros i.
  - cbn [app Transform.arg_lines length]. now rewrite app_nil_l, Nat.add_0_r.
  - cbn [app Transform.arg_lines length]. rewrite IH, app_assoc.
    now replace (S i + length l1) with (i + S (length l1)) by lia.
Qed.

Lemma filter_map_all {A B : Type} (f : B -> bool) (g : A -> B) (l : list A) :
  forallb (fun x => f (g x)) l = true -> List.filter f (map g l) = map g l.
Proof.
  induction l as [|x l IH]; intros H; [reflexivity|].
  cbn [forallb] in H. apply andb_true_iff in H as [Hx Hl].
  cbn [map List.filter]. now rewrite Hx, IH.
Qed.

(** X14: the declared argument at position [n] (counted from one) is
    bound in the runner block to the positional parameter [n], whatever
    options are declared; and when it and all the arguments declared
    before it come with a true value, its value is the [n]-th word that
    [handle] passes to the script after the script's name. *)
Theorem argument_reaches_its_variable (meta : metadata)
    (argument : string -> pyval) (before after : list arg_info) (a : arg_info) :
  args meta = before ++ a :: after ->
  forallb (fun x => truthy (argument (arg_name x))) (before ++ [a]) = true ->
  Transform.block_body meta
  = Transform.option_lines (options meta)
    +:+ Transform.arg_lines 1 before
    +:+ Transform.arg_line (S (length before)) a
    +:+ Transform.arg_lines (S (S (length before))) after
  /\ nth_error (Command.script_args meta argument) (length before)
     = Some (py_str (argument (arg_name a))).
Proof.
  intros Hargs Htrue. split.
  - unfold Transform.block_body. rewrite Hargs, arg_lines_app.
    cbn [Transform.arg_lines Nat.add]. reflexivity.
  - unfold Command.script_args. rewrite script_args_fold, Hargs.
    cbn [app].
    replace (before ++ a :: after) with ((before ++ [a]) ++ after)
      by now rewrite <- List.app_assoc.
    rewrite (map_app _ (before ++ [a]) after), List.filter_app.
    rewrite filter_map_all by exact Htrue.
    rewrite (map_app _ before [a]), !(map_app py_str), <- List.app_assoc.
    rewrite nth_error_app2 by (rewrite !length_map; lia).
    rewrite !length_map, Nat.sub_diag. reflexivity.
Qed.

Lemma argument_reaches_its_variable_witness :
  let meta := {| description := None;
                 args := [ {| arg_name := "src"; arg_description := None;
                              arg_optional := None; arg_default := None |};
                           {| arg_name := "dst"; arg_description := None;
                              arg_optional := Some true; arg_default := Some "out" |} ];
                 options := [] |} in
  nth_error (Command.script_args meta (fun name => PyStr (name +:+ ".txt"))) 1
  = Some "dst.txt".
Proof.
  cbv zeta.
  apply (argument_reaches_its_variable
           {| description := None;
              args := [ {| arg_name := "src"; arg_description := None;
                           arg_optional := None; arg_default := None |};
                        {| arg_name := "dst"; arg_description := None;
                           arg_optional := Some true; arg_default := Some "out" |} ];
              options := [] |}
           (fun name => PyStr (name +:+ ".txt"))
           [ {| arg_name := "src"; arg_description := None;
                arg_optional := None; arg_default := None |} ]
           []
           {| arg_name := "dst"; arg_description := None;
              arg_optional := Some true; arg_default := Some "out" |}).
  - reflexivity.
  - vm_compute. reflexivity.
Defined.

(** ** The names of the shell variables *)

Lemma var_char (a : ascii) :
  let f := fun c : ascii =>
             let d := if Ascii.eqb c "-" then "_"%char else c in
             let n := nat_of_ascii d in
             if ((97 <=? n) && (n <=? 122))%nat then ascii_of_nat (n - 32) else d in
  f (f a) = f a /\ Ascii.eqb (f a) "-" = false
  /\ ((97 <=? nat_of_ascii (f a)) && (nat_of_ascii (f a) <=? 122))%nat = false.
Proof.
  destruct a as [[] [] [] [] [] [] [] []]; vm_compute; repeat split.
Qed.

Lemma var_name_chars (name : string) :
  Transform.var_name name
  = Py.map_chars
      (fun c : ascii =>
         let d := if Ascii.eqb c "-" then "_"%char else c in
         let n := nat_of_ascii d in
         if ((97 <=? n) && (n <=? 122))%nat then ascii_of_nat (n - 32) else d)
      name.
Proof.
  unfold Transform.var_name, Py.upper, Py.replace_hyphen.
  induction name as [|a name IH]; [reflexivity|].
  cbn [Py.map_chars] in *. now rewrite IH.
Qed.

Lemma var_name_upper (name : string) :
  Py.upper (Transform.var_name name) = Transform.var_name name.
Proof.
  rewrite var_name_chars. unfold Py.upper.
  induction name as [|a name IH]; [reflexivity|].
  cbn [Py.map_chars] in *. rewrite IH. f_equal.
  destruct (var_char a) as (_ & _ & Hlow). cbv zeta in Hlow.
  now rewrite Hlow.
Qed.

Lemma var_name_hyphen (name : string) :
  Py.replace_hyphen (Transform.var_name name) = Transform.var_name name.
Proof.
  rewrite var_name_chars. unfold Py.replace_hyphen.
  induction name as [|a name IH]; [reflexivity|].
  cbn [Py.map_chars] in *. rewrite IH. f_equal.
  destruct (var_char a) as (_ & Hh & _). cbv zeta in Hh.
  now rewrite Hh.
Qed.

Lemma var_char_ascii (a : ascii) :
  let f := fun c : ascii =>
             let d := if Ascii.eqb c "-" then "_"%char else c in
             let n := nat_of_ascii d in
             if ((97 <=? n) && (n <=? 122))%nat then ascii_of_nat (n - 32) else d in
  let up := fun c : ascii =>
              let n := nat_of_ascii c in
              if ((97 <=? n) && (n <=? 122))%nat then ascii_of_nat (n - 32) else c in
  let hy := fun c : ascii => if Ascii.eqb c "-" then "_"%char else c in
  (is_ascii a = true -> is_ascii (f a) = true)
  /\ f (up a) = f a /\ f (hy a) = f a.
Proof.
  destruct a as [[] [] [] [] [] [] [] []]; vm_compute; repeat split; congruence.
Qed.

(** X15: for a declared name of ASCII characters, the name of the shell
    variable is made of ASCII characters, has the length of the declared
    name and holds no hyphen; the upper case and the replacement of
    hyphens leave it as it is; and it is also the variable of the declared
    name in upper case and of the declared name with underscores for its
    hyphens, so that such names share one variable. *)
Theorem var_name_normal (name : string) :
  every is_ascii name = true ->
  every is_ascii (Transform.var_name name) = true
  /\ String.length (Transform.var_name name) = String.length name
  /\ Py.contains "-" (Transform.var_name name) = false
  /\ Py.upper (Transform.var_name name) = Transform.var_name name
  /\ Py.replace_hyphen (Transform.var_name name) = Transform.var_name name
  /\ Transform.var_name (Transform.var_name name) = Transform.var_name name
  /\ Transform.var_name (Py.upper name) = Transform.var_name name
  /\ Transform.var_name (Py.replace_hyphen name) = Transform.var_name name.
Proof.
  intros Hascii.
  split; [|split; [|split; [|split; [apply var_name_upper|
    split; [apply var_name_hyphen|split; [|split]]]]]].
  - rewrite var_name_chars.
    induction name as [|a name IH]; [reflexivity|].
    cbn [every] in Hascii. apply andb_true_iff in Hascii as [Ha Hascii].
    cbn [Py.map_chars every]. apply andb_true_iff. split.
    + exact (proj1 (var_char_ascii a) Ha).
    + exact (IH Hascii).
  - rewrite var_name_chars. clear Hascii.
    induction name as [|a name IH]; [reflexivity|].
    cbn [Py.map_chars String.length] in *. now rewrite IH.
  - rewrite var_name_chars. clear Hascii.
    induction name as [|a name IH]; [reflexivity|].
    cbn [Py.map_chars Py.contains Py.startswith] in *. rewrite IH.
    destruct (var_char a) as (_ & Hh & _). cbv zeta in Hh.
    rewrite Ascii.eqb_sym, Hh. reflexivity.
  - unfold Transform.var_name at 1. now rewrite var_name_hyphen, var_name_upper.
  - rewrite !var_name_chars. unfold Py.upper. clear Hascii.
    induction name as [|a name IH]; [reflexivity|].
    cbn [Py.map_chars]. f_equal; [|exact IH].
    exact (proj1 (proj2 (var_char_ascii a))).
  - rewrite !var_name_chars. unfold Py.replace_hyphen. clear Hascii.
    induction name as [|a name IH]; [reflexivity|].
    cbn [Py.map_chars]. f_equal; [|exact IH].
    exact (proj2 (proj2 (var_char_ascii a))).
Qed.

Lemma var_name_normal_witness :
  Transform.var_name "dry-run" = "DRY_RUN"
  /\ Transform.var_name (Py.upper "dry-run") = Transform.var_name "dry-run"
  /\ Transform.var_name (Py.replace_hyphen "dry-run") = Transform.var_name "dry-run".
Proof.
  split; [vm_compute; reflexivity|].
  refine (proj2 (proj2 (proj2 (proj2 (proj2 (proj2
            (var_name_normal "dry-run" _))))))).
  vm_compute. reflexivity.
Defined.

(** * Further properties of the metadata parser *)

(** ** The metadata, line by line *)

Lemma kinds_exclusive (line : string) :
  (Py.startswith "# @description:" line = true ->
   Py.startswith "# @arg" line = false /\ Py.startswith "# @option" line = false)
  /\ (Py.startswith "# @arg" line = true -> Py.startswith "# @option" line = false).
Proof.
  destruct line as [|a [|b [|c [|d s]]]];
    try (split; intros H; cbn [Py.startswith] in H;
         repeat match type of H with
                | (if ?t then _ else _) = true => destruct t
                end; discriminate H).
  cbn [Py.startswith].
  destruct (Ascii.eqb "#" a), (Ascii.eqb " " b), (Ascii.eqb "@" c);
    try (split; intros H; discriminate H).
  destruct (Ascii.eqb_spec "d"%char d) as [<-|Hd].
  - split; [intros _; split; reflexivity|intros H; discriminate H].
  - split; [intros H; discriminate H|].
    destruct (Ascii.eqb_spec "a"%char d) as [<-|Ha]; [reflexivity|].
    intros H; discriminate H.
Qed.

Lemma parse_line_fields (md : metadata) (raw : string) :
  args (Parser.parse_line md raw)
  = args md ++ match arg_of_line raw with Some a => [a] | None => [] end
  /\ options (Parser.parse_line md raw)
     = options md ++ match option_of_line raw with Some o => [o] | None => [] end
  /\ description (Parser.parse_line md raw)
     = match description_of_line raw with
       | Some d => Some d
       | None => description md
       end.
Proof.
  unfold Parser.parse_line, arg_of_line, option_of_line, description_of_line.
  cbv zeta. destruct (kinds_exclusive (Py.strip raw)) as [Hd Ha].
  destruct (Py.startswith "# @description:" (Py.strip raw)).
  - destruct (Hd eq_refl) as [-> ->]. cbn [args options description].
    now rewrite !List.app_nil_r.
  - destruct (Py.startswith "# @arg" (Py.strip raw)).
    + rewrite (Ha eq_refl).
      destruct (Parser.parse_arg_line (Py.strip raw));
        cbn [args options description]; now rewrite !List.app_nil_r.
    + destruct (Py.startswith "# @option" (Py.strip raw)).
      * destruct (Parser.parse_option_line (Py.strip raw));
          cbn [args options description]; now rewrite !List.app_nil_r.
      * now rewrite !List.app_nil_r.
Qed.

Lemma omap_last {A B : Type} (f : A -> option B) (l : list A) (x : A) :
  omap f (l ++ [x]) = omap f l ++ match f x with Some y => [y] | None => [] end.
Proof.
  induction l as [|y l IH]; cbn [app omap list_omap].
  - destruct (f x); reflexivity.
  - fold (omap f (l ++ [x])). fold (omap f l).
    rewrite IH. now destruct (f y).
Qed.

(** X16: the metadata of a script is made line by line: the arguments
    are those of the lines that declare one, in the order of the lines,
    and so are the options; the description is that of the last
    description line; a line of another kind, or a declaration that does
    not match its pattern, is passed over without an error. *)
Theorem metadata_line_by_line (text : string) :
  args (Parser.parse_script_metadata text)
  = omap arg_of_line (Py.file_lines text)
  /\ options (Parser.parse_script_metadata text)
     = omap option_of_line (Py.file_lines text)
  /\ description (Parser.parse_script_metadata text)
     = hd_error (rev (omap description_of_line (Py.file_lines text))).
Proof.
  unfold Parser.parse_script_metadata.
  induction (Py.file_lines text) as [|raw lines IH] using rev_ind.
  - repeat split.
  - rewrite fold_left_app. cbn [fold_left].
    destruct IH as (IHa & IHo & IHd).
    destruct (parse_line_fields
                (fold_left Parser.parse_line lines
                   {| description := None; args := []; options := [] |}) raw)
      as (Ha & Ho & Hd).
    rewrite Ha, Ho, Hd, IHa, IHo, IHd, !omap_last.
    split; [reflexivity|]. split; [reflexivity|].
    destruct (description_of_line raw) as [d|].
    + now rewrite rev_app_distr.
    + now rewrite List.app_nil_r.
Qed.

(** ** The matcher on repetitions and groups *)

Section GreedyFacts.

Context {R : Type}.

Lemma run_star (r : Re.regex) (s : string) (c : Re.captures)
    (k : string -> Re.captures -> option R) :
  Re.run (Re.Star r) s c k = star_loop r k (String.length s) s c.
Proof. reflexivity. Qed.


Lemma run_opt_fail (r : Re.regex) (s : string) (c : Re.captures)
    (k : string -> Re.captures -> option R) :
  (forall K : string -> Re.captures -> option R, Re.run r s c K = None) ->
  Re.run (Re.Opt r) s c k = k s c.
Proof. intros H. cbn [Re.run]. fold (@Re.run R). now rewrite H. Qed.

Lemma run_seq (r1 r2 : Re.regex) (s : string) (c : Re.captures)
    (k : string -> Re.captures -> option R) :
  Re.run (Re.Seq r1 r2) s c k
  = Re.run r1 s c (fun s' c' => Re.run r2 s' c' k).
Proof. reflexivity. Qed.

Lemma run_group (i : nat) (r : Re.regex) (s : string) (c : Re.captures)
    (k : string -> Re.captures -> option R) :
  Re.run (Re.Group i r) s c k
  = Re.run r s c (fun s' c' =>
      k s' ((i, Py.take (String.length s - String.length s') s) :: c')).
Proof. reflexivity. Qed.


(** The greedy [p*] tries what follows it after the longest run of
    characters of [p], then after shorter ones. *)
Lemma run_star_class (p : ascii -> bool) (s : string) (c : Re.captures)
    (k : string -> Re.captures -> option R) :
  Re.run (Re.Star (Re.Class p)) s c k = longest_first p (fun s' => k s' c) s.
Proof.
  rewrite run_star.
  assert (H : String.length s <= String.length s) by lia. revert H.
  generalize (String.length s) at 2 3. intros n. revert s.
  induction n as [|n IH]; intros s Hn.
  - destruct s as [|a s]; [reflexivity|simpl in Hn; lia].
  - destruct s as [|a s]; [reflexivity|].
    cbn [star_loop longest_first Re.run]. destruct (p a); [|reflexivity].
    replace (String.length s <? String.length (String a s))%nat with true
      by (symmetry; apply Nat.ltb_lt; simpl; lia).
    rewrite IH by (simpl in Hn; lia). reflexivity.
Qed.

Lemma run_plus_class (p : ascii -> bool) (a : ascii) (s : string)
    (c : Re.captures) (k : string -> Re.captures -> option R) :
  p a = true ->
  Re.run (Re.Plus (Re.Class p)) (String a s) c k
  = longest_first p (fun s' => k s' c) s.
Proof.
  intros Ha. unfold Re.Plus. rewrite run_seq.
  change (Re.run (Re.Class p) (String a s) c ?K)
    with (if p a then K s c else None).
  rewrite Ha. apply run_star_class.
Qed.


Lemma longest_first_stop (p : ascii -> bool) (k : string -> option R)
    (u rest : string) (x : R) :
  every p u = true -> stops p rest = true -> k rest = Some x ->
  longest_first p k (u +:+ rest) = Some x.
Proof.
  intros Hu Hrest Hk. induction u as [|a u IH].
  - rewrite app_nil_l. destruct rest as [|b rest]; [exact Hk|].
    cbn [stops] in Hrest. apply negb_true_iff in Hrest.
    cbn [longest_first]. now rewrite Hrest.
  - cbn [every] in Hu. apply andb_true_iff in Hu as [Ha Hu].
    rewrite app_cons. cbn [longest_first]. now rewrite Ha, IH.
Qed.



End GreedyFacts.

Lemma take_app (u w : string) : Py.take (String.length u) (u +:+ w) = u.
Proof.
  induction u as [|a u IH]; [reflexivity|].
  rewrite app_cons. cbn [String.length Py.take]. now rewrite IH.
Qed.

Lemma take_matched (u w : string) :
  Py.take (String.length (u +:+ w) - String.length w) (u +:+ w) = u.
Proof.
  rewrite length_app.
  replace (String.length u + String.length w - String.length w)
    with (String.length u) by lia.
  apply take_app.
Qed.


Section ConsumeFacts.

Lemma run_opt {R : Type} (r : Re.regex) (s : string) (c : Re.captures)
    (k : string -> Re.captures -> option R) :
  Re.run (Re.Opt r) s c k
  = match Re.run r s c k with Some x => Some x | None => k s c end.
Proof. reflexivity. Qed.

Lemma star_loop_S {R : Type} (r : Re.regex) (n : nat) (s : string)
    (c : Re.captures) (k : string -> Re.captures -> option R) :
  star_loop r k (S n) s c
  = match Re.run r s c (fun s' c' =>
            if (String.length s' <? String.length s)%nat
            then star_loop r k n s' c' else None) with
    | Some x => Some x
    | None => k s c
    end.
Proof. reflexivity. Qed.

Lemma consumes_rmatch (r : Re.regex) (u : string) (c' : Re.captures) :
  consumes r u [] c' "" -> Re.rmatch r u = Some (c', "").
Proof.
  intros H. unfold Re.rmatch. rewrite <- (app_nil_r u). now apply H.
Qed.


Lemma consumes_lit (l : string) (c : Re.captures) (w : string) :
  consumes (Re.Lit l) l c c w.
Proof.
  intros R K x HK. now rewrite run_lit, startswith_self, drop_app.
Qed.

Lemma consumes_seq (r1 r2 : Re.regex) (u1 u2 : string)
    (c c1 c2 : Re.captures) (w : string) :
  consumes r1 u1 c c1 (u2 +:+ w) -> consumes r2 u2 c1 c2 w ->
  consumes (Re.Seq r1 r2) (u1 +:+ u2) c c2 w.
Proof.
  intros H1 H2 R K x HK. rewrite app_assoc, run_seq.
  apply H1. now apply H2.
Qed.

Lemma consumes_group (i : nat) (r : Re.regex) (u : string)
    (c c' : Re.captures) (w : string) :
  consumes r u c c' w -> consumes (Re.Group i r) u c ((i, u) :: c') w.
Proof.
  intros H R K x HK. rewrite run_group. apply H.
  now rewrite take_matched.
Qed.


Lemma consumes_plus_class (p : ascii -> bool) (u : string) (c : Re.captures)
    (w : string) :
  u <> "" -> every p u = true -> stops p w = true ->
  consumes (Re.Plus (Re.Class p)) u c c w.
Proof.
  intros Hne Hu Hw R K x HK. destruct u as [|a u]; [contradiction|].
  cbn [every] in Hu. apply andb_true_iff in Hu as [Ha Hu].
  rewrite app_cons, run_plus_class by exact Ha.
  now apply longest_first_stop.
Qed.









End ConsumeFacts.

(** ** What a well-formed declaration parses to *)










(** ** The default of the modifiers *)

Lemma rmatch_default_fail (s : string) :
  Py.startswith "default=" s = false ->
  Re.rmatch Parser.default_pattern s = None.
Proof.
  intros H. unfold Re.rmatch, Parser.default_pattern.
  now rewrite run_seq, run_lit, H.
Qed.

Lemma rmatch_default_here (d : string) :
  d <> "" -> every (Re.non "]") d = true ->
  Re.rmatch Parser.default_pattern ("default=" +:+ d) = Some ([(1, d)], "").
Proof.
  intros Hd1 Hd2. apply consumes_rmatch. unfold Parser.default_pattern.
  apply (consumes_seq _ _ "default=" d [] []).
  { apply consumes_lit. }
  apply consumes_group. apply consumes_plus_class; [assumption..|reflexivity].
Qed.

(** X21: the default taken from the modifiers is all their text after
    the first [default=], to their end: a modifier written after the
    default becomes part of it. *)
Theorem default_is_rest_of_modifiers (before d : string) :
  Aux.starting_in "default=" before ("default=" +:+ d) = 0 ->
  d <> "" -> every (Re.non "]") d = true ->
  Parser.search_default (before +:+ "default=" +:+ d) = Some d.
Proof.
  intros Hb Hd1 Hd2. unfold Parser.search_default.
  assert (Hs : Re.search Parser.default_pattern (before +:+ "default=" +:+ d)
               = Some ([(1, d)], "")).
  { induction before as [|a before IH].
    - rewrite app_nil_l.
      change ("default=" +:+ d) with (String "d" ("efault=" +:+ d)) at 1.
      cbn [Re.search].
      change (String "d" ("efault=" +:+ d)) with ("default=" +:+ d).
      now rewrite rmatch_default_here.
    - cbn [Aux.starting_in] in Hb.
      destruct (Py.startswith "default=" (String a before +:+ "default=" +:+ d))
        eqn:Hs; [discriminate|].
      rewrite app_cons in Hs. rewrite app_cons. cbn [Re.search].
      rewrite rmatch_default_fail by exact Hs. now apply IH. }
  now rewrite Hs.
Qed.

Lemma default_is_rest_of_modifiers_witness :
  Parser.search_default "default=out.txt optional" = Some "out.txt optional".
Proof.
  apply (default_is_rest_of_modifiers "" "out.txt optional");
    solve [discriminate | vm_compute; reflexivity].
Defined.

(** ** An option declared without a shortcut *)


Lemma option_pattern_parts :
  Parser.option_pattern
  = Re.Seq (Re.Lit "# @option ")
      (Re.Seq (Re.Group 1 (Re.Plus (Re.Class (Re.non ",")))) option_rest).
Proof. reflexivity. Qed.


Lemma every_app (p : ascii -> bool) (u w : string) :
  every p (u +:+ w) = every p u && every p w.
Proof.
  induction u as [|a u IH]; [now rewrite app_nil_l|].
  rewrite app_cons. cbn [every]. now rewrite IH, andb_assoc.
Qed.







(** * [_update_script_runner_block] *)

(** X23: [_update_script_runner_block] never returns: when the script
    cannot be read it raises the error of the read and changes nothing;
    otherwise it first overwrites the script with the text in which the
    block is inserted, keeping the mode of the file, and then raises a
    [NameError] for [temp_path], a name it never binds. *)
Theorem update_never_returns (script_path : string) (script_meta : metadata)
    (w : gmap string Command.file) :
  Update._update_script_runner_block script_path script_meta w
  = match w !! script_path with
    | Some f =>
        (<[script_path :=
             {| Command.content :=
                  Transform.insert_runner_block
                    (Update.runner_block script_meta)
                    (Transform.remove_runner_block (Command.content f));
                Command.mode := Command.mode f |}]> w,
         Update.Raise (Update.NameError "temp_path"))
    | None => (w, Update.Raise (Update.FileNotFoundError script_path))
    end
  /\ forall w' a,
       Update._update_script_runner_block script_path script_meta w
       <> (w', Update.Ok a).
Proof.
  assert (H : Update._update_script_runner_block script_path script_meta w
              = match w !! script_path with
                | Some f =>
                    (<[script_path :=
                         {| Command.content :=
                              Transform.insert_runner_block
                                (Update.runner_block script_meta)
                                (Transform.remove_runner_block (Command.content f));
                            Command.mode := Command.mode f |}]> w,
                     Update.Raise (Update.NameError "temp_path"))
                | None => (w, Update.Raise (Update.FileNotFoundError script_path))
                end).
  { unfold Update._update_script_runner_block, Update.bind, Update.read_text,
      Update.write_text, Update.unbound_name.
    destruct (w !! script_path) as [f|] eqn:Hf; [|reflexivity].
    cbv beta iota. now rewrite Hf. }
  split; [exact H|]. intros w' a. rewrite H.
  destruct (w !! script_path); intros E; discriminate E.
Qed.

(** * The markers in the runner block *)

Section BlockMarkers.

Lemma starting_in_first_char (h : ascii) (sub x w : string) :
  every (Re.non h) x = true -> Aux.starting_in (String h sub) x w = 0.
Proof.
  induction x as [|a x IH]; intros H; [reflexivity|].
  cbn [every] in H. apply andb_true_iff in H as [Ha H].
  cbn [Aux.starting_in]. rewrite app_cons. cbn [Py.startswith].
  unfold Re.non in Ha. apply negb_true_iff in Ha.
  rewrite Ascii.eqb_sym, Ha. now apply IH.
Qed.

Lemma var_char_hash (a : ascii) :
  Re.non "#" a = true ->
  Re.non "#"
    (let d := if Ascii.eqb a "-" then "_"%char else a in
     let n := nat_of_ascii d in
     if ((97 <=? n) && (n <=? 122))%nat then ascii_of_nat (n - 32) else d)
  = true.
Proof.
  destruct a as [[] [] [] [] [] [] [] []]; vm_compute; congruence.
Qed.

Lemma var_name_hash (name : string) :
  every (Re.non "#") name = true ->
  every (Re.non "#") (Transform.var_name name) = true.
Proof.
  rewrite var_name_chars.
  induction name as [|a name IH]; intros H; [reflexivity|].
  cbn [every] in H. apply andb_true_iff in H as [Ha H].
  cbn [Py.map_chars every]. apply andb_true_iff. split.
  - exact (var_char_hash a Ha).
  - exact (IH H).
Qed.

Lemma digits_hash (d : Decimal.uint) :
  every (Re.non "#") (DecimalString.NilEmpty.string_of_uint d) = true.
Proof. induction d; cbn [DecimalString.NilEmpty.string_of_uint every]; auto. Qed.

Lemma str_nat_hash (i : nat) : every (Re.non "#") (Transform.str_nat i) = true.
Proof.
  unfold Transform.str_nat, DecimalString.NilZero.string_of_uint.
  destruct (Nat.to_uint i); try reflexivity; apply digits_hash.
Qed.

Lemma option_line_hash (opt : opt_info) :
  every (Re.non "#") (opt_name opt) = true ->
  every (Re.non "#") (get (opt_default opt) "") = true ->
  every (Re.non "#") (Transform.option_line opt) = true.
Proof.
  intros Hn Hd. apply var_name_hash in Hn. unfold Transform.option_line.
  destruct (get (opt_flag opt) false); [|destruct (negb _)];
    rewrite ?every_app, ?Hn, ?Hd; reflexivity.
Qed.

Lemma arg_line_hash (i : nat) (arg : arg_info) :
  every (Re.non "#") (arg_name arg) = true ->
  every (Re.non "#") (get (arg_default arg) "") = true ->
  every (Re.non "#") (Transform.arg_line i arg) = true.
Proof.
  intros Hn Hd. apply var_name_hash in Hn. unfold Transform.arg_line.
  now rewrite ?every_app, Hn, Hd, str_nat_hash.
Qed.

Lemma block_body_hash (meta : metadata) :
  forallb (fun o => every (Re.non "#") (opt_name o)
                    && every (Re.non "#") (get (opt_default o) ""))
    (options meta) = true ->
  forallb (fun a => every (Re.non "#") (arg_name a)
                    && every (Re.non "#") (get (arg_default a) ""))
    (args meta) = true ->
  every (Re.non "#") (Transform.block_body meta) = true.
Proof.
  intros Ho Ha. unfold Transform.block_body. rewrite every_app.
  apply andb_true_iff. split.
  - induction (options meta) as [|o l IH]; [reflexivity|].
    cbn [forallb] in Ho. apply andb_true_iff in Ho as [Ho1 Ho].
    apply andb_true_iff in Ho1 as [Hn Hd].
    cbn [Transform.option_lines]. rewrite every_app, option_line_hash by assumption.
    now apply IH.
  - generalize 1 as i. induction (args meta) as [|a l IH]; intros i; [reflexivity|].
    cbn [forallb] in Ha. apply andb_true_iff in Ha as [Ha1 Ha].
    apply andb_true_iff in Ha1 as [Hn Hd].
    cbn [Transform.arg_lines]. rewrite every_app, arg_line_hash by assumption.
    now apply IH.
Qed.

End BlockMarkers.

(** X24: when no declared name and no default holds a [#], the runner
    block holds the start marker once and the end marker once. *)
Theorem block_holds_each_marker_once (meta : metadata) :
  forallb (fun o => every (Re.non "#") (opt_name o)
                    && every (Re.non "#") (get (opt_default o) ""))
    (options meta) = true ->
  forallb (fun a => every (Re.non "#") (arg_name a)
                    && every (Re.non "#") (get (arg_default a) ""))
    (args meta) = true ->
  Py.occurrences Transform.SCRIPT_RUNNER_START (Transform.runner_block meta) = 1
  /\ Py.occurrences Transform.SCRIPT_RUNNER_END (Transform.runner_block meta) = 1.
Proof.
  intros Ho Ha. pose proof (block_body_hash meta Ho Ha) as Hbody.
  assert (Hin : forall sub w,
             Aux.starting_in (String "#" sub) (Py.nl +:+ Transform.block_body meta) w
             = 0).
  { intros sub w. apply starting_in_first_char. now rewrite every_app, Hbody. }
  unfold Transform.runner_block.
  rewrite <- (app_assoc Py.nl (Transform.block_body meta)).
  split.
  - rewrite occurrences_app, occurrences_app.
    unfold Transform.SCRIPT_RUNNER_START. rewrite Hin. reflexivity.
  - rewrite occurrences_app, occurrences_app.
    unfold Transform.SCRIPT_RUNNER_END. rewrite Hin. reflexivity.
Qed.

Lemma block_holds_each_marker_once_witness :
  Py.occurrences Transform.SCRIPT_RUNNER_START (Transform.runner_block sample_meta) = 1
  /\ Py.occurrences Transform.SCRIPT_RUNNER_END (Transform.runner_block sample_meta) = 1.
Proof.
  apply (block_holds_each_marker_once sample_meta); vm_compute; reflexivity.
Defined.

(** * What the parser never yields *)

Section Captured.

(** A pattern leaves the capture of a group that does not occur in it. *)
Lemma run_keeps {R : Type} (i : nat) (r : Re.regex) (s : string)
    (c : Re.captures) (k : string -> Re.captures -> option R) (x : R) :
  binds i r = false ->
  Re.run r s c k = Some x ->
  exists n c', k (Py.drop n s) c' = Some x /\ Re.group i c' = Re.group i c.
Proof.
  revert s c k. induction r as [a|p| |r1 IH1 r2 IH2|r IH|r IH|r IH|j r IH];
    intros s c k Hb H; cbn [binds] in Hb.
  - cbn [Re.run] in H. destruct s as [|b s]; [discriminate|].
    destruct (Ascii.eqb a b); [|discriminate]. now exists 1, c.
  - cbn [Re.run] in H. destruct s as [|b s]; [discriminate|].
    destruct (p b); [|discriminate]. now exists 1, c.
  - now exists 0, c.
  - apply orb_false_iff in Hb as [Hb1 Hb2].
    rewrite run_seq in H. apply IH1 in H as (n1 & c1 & H & E1); [|exact Hb1].
    apply IH2 in H as (n2 & c2 & H & E2); [|exact Hb2].
    exists (n1 + n2), c2. rewrite drop_add. split; [exact H|congruence].
  - rewrite run_opt in H. destruct (Re.run r s c k) as [y|] eqn:E.
    + injection H as <-. now apply IH in E.
    + now exists 0, c.
  - rewrite run_star in H. revert H.
    generalize (String.length s) as n. intros n. revert s c.
    induction n as [|n IHn]; intros s c H.
    + now exists 0, c.
    + rewrite star_loop_S in H.
      destruct (Re.run r s c _) as [y|] eqn:E.
      * injection H as <-. apply IH in E as (n1 & c1 & E & E1); [|exact Hb].
        destruct (String.length (Py.drop n1 s) <? String.length s)%nat;
          [|discriminate].
        apply IHn in E as (n2 & c2 & E & E2).
        exists (n1 + n2), c2. rewrite drop_add. split; [exact E|congruence].
      * now exists 0, c.
  - cbn [Re.run] in H. revert H.
    generalize (String.length s) as n. intros n. revert s c.
    induction n as [|n IHn]; intros s c H.
    + destruct (k s c) as [y|] eqn:E; [|discriminate].
      injection H as <-. now exists 0, c.
    + destruct (k s c) as [y|] eqn:E.
      * injection H as <-. now exists 0, c.
      * apply IH in H as (n1 & c1 & H & E1); [|exact Hb].
        destruct (String.length (Py.drop n1 s) <? String.length s)%nat;
          [|discriminate].
        apply IHn in H as (n2 & c2 & H & E2).
        exists (n1 + n2), c2. rewrite drop_add. split; [exact H|congruence].
  - apply orb_false_iff in Hb as [Hij Hb].
    rewrite run_group in H. apply IH in H as (n & c' & H & E); [|exact Hb].
    exists n, ((j, Py.take (String.length s - String.length (Py.drop n s)) s) :: c').
    split; [exact H|]. cbn [Re.group]. now rewrite Hij.
Qed.

Lemma longest_first_some {R : Type} (p : ascii -> bool)
    (k : string -> option R) (s : string) (x : R) :
  longest_first p k s = Some x ->
  exists n, n <= String.length s /\ every p (Py.take n s) = true
            /\ k (Py.drop n s) = Some x.
Proof.
  induction s as [|a s IH]; intros H.
  - exists 0. repeat split; [cbn; lia|exact H].
  - cbn [longest_first] in H. destruct (p a) eqn:Ha.
    + destruct (longest_first p k s) as [y|] eqn:E.
      * injection H as <-. destruct (IH eq_refl) as (n & Hn & He & Hk).
        exists (S n). cbn [String.length Py.take Py.drop every].
        rewrite Ha, He. repeat split; [lia|exact Hk].
      * exists 0. repeat split; [cbn; lia|exact H].
    + exists 0. repeat split; [cbn; lia|exact H].
Qed.

Lemma length_drop (n : nat) (s : string) :
  String.length (Py.drop n s) = String.length s - n.
Proof.
  revert s. induction n as [|n IH]; intros s; [cbn; lia|].
  destruct s as [|a s]; [reflexivity|]. cbn [Py.drop String.length]. apply IH.
Qed.

Lemma take_drop (n : nat) (s : string) : Py.take n s +:+ Py.drop n s = s.
Proof.
  revert s. induction n as [|n IH]; intros s; [apply app_nil_l|].
  destruct s as [|a s]; [reflexivity|].
  cbn [Py.take Py.drop]. now rewrite app_cons, IH.
Qed.

(** What a group [(p+)] at the start of a text has captured when the
    rest of the pattern, which does not hold the group, has matched, and
    where the rest of the pattern has started. *)
Lemma plus_group_split (i : nat) (p : ascii -> bool)
    (rest : Re.regex) (s : string) (c : Re.captures) (c' : Re.captures)
    (out : string) :
  binds i rest = false ->
  Re.run (Re.Seq (Re.Group i (Re.Plus (Re.Class p))) rest) s c
    (fun s' c'' => Some (c'', s')) = Some (c', out) ->
  exists name w,
    s = name +:+ w /\ name <> "" /\ every p name = true
    /\ Re.group i c' = Some name
    /\ Re.run rest w ((i, name) :: c) (fun s' c'' => Some (c'', s'))
       = Some (c', out).
Proof.
  intros Hb H. rewrite run_seq, run_group in H. unfold Re.Plus in H.
  rewrite run_seq in H. destruct s as [|a s]; [discriminate H|].
  change (Re.run (Re.Class p) (String a s) c ?K)
    with (if p a then K s c else None) in H.
  destruct (p a) eqn:Ha; [|discriminate H].
  rewrite run_star_class in H.
  apply longest_first_some in H as (n & Hn & He & H).
  rewrite length_drop in H. cbn [String.length] in H.
  replace (S (String.length s) - (String.length s - n)) with (S n) in H by lia.
  cbn [Py.take] in H.
  exists (String a (Py.take n s)), (Py.drop n s).
  split; [now rewrite app_cons, take_drop|].
  split; [discriminate|].
  split; [cbn [every]; now rewrite Ha, He|].
  split; [|exact H].
  apply (run_keeps i) in H as (m & c1 & H & E); [|exact Hb].
  injection H as <- _. rewrite E. cbn [Re.group]. now rewrite Nat.eqb_refl.
Qed.


End Captured.



(** X26: in a line of ASCII characters that the parser takes as the
    declaration of an option with a shortcut, the shortcut is not empty
    and is made of word characters. *)
Theorem parsed_option_shortcut (line : string) (o : opt_info) (short : string) :
  every is_ascii line = true ->
  Parser.parse_option_line line = Some o ->
  opt_short o = Some short ->
  short <> "" /\ every Re.word short = true.
Proof.
  intros _. unfold Parser.parse_option_line.
  destruct (Re.rmatch Parser.option_pattern line) as [[c out]|] eqn:Hm;
    [|discriminate].
  intros H Hshort. injection H as <-.
  assert (Hg : Re.group 2 c = Some short).
  { destruct (truthy_str (Re.group 4 c)); [|exact Hshort].
    destruct (Py.contains "flag" _); [exact Hshort|].
    destruct (Py.contains "default=" _); [|exact Hshort].
    destruct (Parser.search_default _); exact Hshort. }
  clear Hshort. unfold Re.rmatch in Hm. rewrite option_pattern_parts in Hm.
  rewrite run_seq, run_lit in Hm.
  destruct (Py.startswith "# @option " line); [|discriminate Hm].
  rewrite run_seq in Hm.
  apply (run_keeps 2) in Hm as (n & c1 & Hm & E1); [|reflexivity].
  cbn [Re.group] in E1. unfold option_rest in Hm.
  rewrite run_seq, run_opt in Hm.
  destruct (Re.run (Re.Seq (Re.Chr ",") _) _ c1 _) as [y|] eqn:E.
  - injection Hm as ->. rewrite run_seq in E.
    destruct (Py.drop n _) as [|b s]; [discriminate E|].
    cbn [Re.run] in E. fold (@Re.run (Re.captures * string)) in E.
    destruct (Ascii.eqb "," b); [|discriminate E].
    change (Re.run (Re.Seq (Re.Group 2 (Re.Plus (Re.Class Re.word)))
                      (Re.Seq (Re.Opt (modifiers_re 3 4)) (tail_re 5)))
              s c1 (fun s' c' => Some (c', s')) = Some (c, out)) in E.
    apply plus_group_split in E as (name & w & _ & Hne & Hw & Hn & _);
      [|reflexivity].
    rewrite Hg in Hn. injection Hn as <-. now split.
  - apply (run_keeps 2) in Hm as (m & c2 & Hm & E2); [|reflexivity].
    injection Hm as <- _. rewrite E2, E1 in Hg. discriminate Hg.
Qed.

Lemma parsed_option_shortcut_witness :
  Parser.parse_option_line "# @option output,o [default=a.txt]: Output file"
  = Some {| opt_name := "output"; opt_description := Some "Output file";
            opt_short := Some "o"; opt_flag := Some false;
            opt_default := Some "a.txt" |}
  /\ "o" <> "" /\ every Re.word "o" = true.
Proof.
  split; [vm_compute; reflexivity|].
  apply (parsed_option_shortcut "# @option output,o [default=a.txt]: Output file"
           {| opt_name := "output"; opt_description := Some "Output file";
              opt_short := Some "o"; opt_flag := Some false;
              opt_default := Some "a.txt" |} "o").
  - vm_compute. reflexivity.
  - vm_compute. reflexivity.
  - reflexivity.
Defined.

(** * The two runner blocks, and the script as the child gets it *)

Lemma app_inv_head (p s t : string) : p +:+ s = p +:+ t -> s = t.
Proof.
  induction p as [|a p IH]; intros H.
  - now rewrite !app_nil_l in H.
  - rewrite !app_cons in H. injection H as H. now apply IH.
Qed.

(** X27: the block that [_update_script_runner_block] writes is the
    block of [_create_temp_script] when no argument is declared, and
    differs from it as soon as one is: its argument lines have a [$]
    before the position. *)
Theorem update_block_differs (meta : metadata) :
  (args meta = [] -> Update.runner_block meta = Transform.runner_block meta)
  /\ (args meta <> [] -> Update.runner_block meta <> Transform.runner_block meta).
Proof.
  unfold Update.runner_block, Transform.runner_block, Transform.block_body.
  split.
  - now intros ->.
  - intros Hne H. destruct (args meta) as [|a l]; [contradiction|].
    apply app_inv_head in H. apply app_inv_head in H.
    rewrite !app_assoc in H. apply app_inv_head in H.
    cbn [Update.arg_lines Transform.arg_lines] in H.
    unfold Update.arg_line, Transform.arg_line in H.
    rewrite !app_assoc in H. apply app_inv_head in H.
    discriminate H.
Qed.

(** X28: for a script that holds no start marker and no user-setting
    marker and whose first line begins with [#!], the text written to the
    temporary file is that line, an empty line, the runner block and the
    rest of the script as it was. *)
Theorem transform_of_plain_script (meta : metadata) (l rest : string) :
  Py.occurrences Transform.SCRIPT_RUNNER_START (l +:+ Py.nl +:+ rest) = 0 ->
  Py.contains Transform.USER_SETTING (l +:+ Py.nl +:+ rest) = false ->
  Aux.one_line l = true ->
  Py.startswith "#!" l = true ->
  Transform.transform meta (l +:+ Py.nl +:+ rest)
  = l +:+ Py.nl +:+ Py.nl +:+ Transform.runner_block meta +:+ rest.
Proof.
  intros Hstart Hu Hl Hs. unfold Transform.transform.
  rewrite remove_none by exact Hstart.
  unfold Transform.insert_runner_block.
  rewrite Hu, split_lines_app, (split_none Py.nl l)
    by now apply one_line_contains.
  cbn [app nth skipn]. rewrite Hs, skipn_O.
  now rewrite (join_split Py.nl rest) by apply nl_not_empty.
Qed.

Lemma transform_of_plain_script_witness :
  Transform.transform sample_meta
    ("#!/bin/bash" +:+ Py.nl +:+ "echo hi" +:+ Py.nl)
  = "#!/bin/bash" +:+ Py.nl +:+ Py.nl +:+ Transform.runner_block sample_meta
    +:+ "echo hi" +:+ Py.nl.
Proof.
  apply (transform_of_plain_script sample_meta "#!/bin/bash"
           ("echo hi" +:+ Py.nl)); vm_compute; reflexivity.
Defined.
